(** * Calorie finder: the product-lookup and nutrient-normalization layer

    A shallow embedding of [main2.py] (the OpenFoodFacts desktop client):
    the two HTTP fetch functions, [extract_kcal], the background
    [SearchWorker] and the callbacks of [CalorieFinderApp], followed by the
    properties of the lookup layer.

    Python values decoded from JSON are the inductive [pyval]; dictionaries
    are finite maps with string keys (their insertion order is not
    modelled: nothing below depends on it).  Python exceptions are values
    of [exn]; code that can raise returns a [result], and code that mutates
    an object threads it through the state-and-exception monad [py]. *)

From Stdlib Require Import ZArith Ascii String List Bool Lia.
From Stdlib Require Import Floats.SpecFloat.
From stdpp Require Import gmap strings list fin_maps pretty.

Local Set Warnings "-register-all".

(** ** Python values *)

Module Py.

(** The objects [json.loads] can build, plus nothing else: the lookup layer
    never constructs any other kind of object.  A float is an IEEE-754
    binary64 datum in decoded form. *)
Inductive pyval : Type :=
| PNone
| PBool (b : bool)
| PInt (z : Z)
| PFloat (f : spec_float)
| PStr (s : string)
| PList (l : list pyval)
| PDict (d : gmap string pyval).

(** [bool(v)], the test behind [if v] and [v or w]. *)
Definition truthy (v : pyval) : bool :=
  match v with
  | PNone => false
  | PBool b => b
  | PInt z => negb (z =? 0)%Z
  | PFloat (S754_zero _) => false
  | PFloat _ => true
  | PStr s => negb (String.eqb s "")
  | PList [] => false
  | PList (_ :: _) => true
  | PDict d => negb (size d =? 0)%nat
  end.

(** [a or b] on already evaluated operands. *)
Definition py_or (a b : pyval) : pyval := if truthy a then a else b.

(** [v is None] *)
Definition is_none (v : pyval) : bool :=
  match v with PNone => true | _ => false end.

#[global] Instance is_not_none_dec (v : pyval) : Decision (v ≠ PNone).
Proof. destruct v; (by left) || (right; intros H; by apply H). Defined.

(** [type(v).__name__] *)
Definition type_name (v : pyval) : string :=
  match v with
  | PNone => "NoneType"
  | PBool _ => "bool"
  | PInt _ => "int"
  | PFloat _ => "float"
  | PStr _ => "str"
  | PList _ => "list"
  | PDict _ => "dict"
  end.

(** *** Exceptions *)

(** The exception classes that occur.  The only test the program ever makes
    on an exception is [isinstance(e, requests.exceptions.RequestException)]
    (the first [except] clause of [SearchWorker.run]). *)
Inductive exc_class : Type :=
| HTTPError                 (* requests: raised by raise_for_status *)
| ConnectionError           (* requests: DNS failure, refused, reset *)
| Timeout                   (* requests: connect or read timeout *)
| RequestsJSONDecodeError   (* requests >= 2.27: r.json() on a bad body *)
| RequestException          (* requests: any other member of the family *)
| ValueError                (* json.JSONDecodeError of older requests *)
| AttributeError
| TypeError
| OverflowError             (* sip: an int that does not fit a C int *)
| OtherException.

Definition is_request_exception (c : exc_class) : bool :=
  match c with
  | HTTPError | ConnectionError | Timeout
  | RequestsJSONDecodeError | RequestException => true
  | ValueError | AttributeError | TypeError | OverflowError
  | OtherException => false
  end.

(** An exception object: its class and [str(e)]. *)
Record exn : Type := Exn { exn_class : exc_class; exn_str : string }.

Inductive result (A : Type) : Type :=
| Ok (a : A)
| Raise (e : exn).
Arguments Ok {A} a.
Arguments Raise {A} e.

#[global] Instance result_ret : MRet result := λ A a, Ok a.
#[global] Instance result_bind : MBind result := λ A B f r,
  match r with Ok a => f a | Raise e => Raise e end.

(** Computations that mutate a state [S] and may raise.  A raise keeps the
    mutations made so far, as in Python. *)
Definition py (S A : Type) : Type := S → result A * S.

#[global] Instance py_ret {S} : MRet (py S) := λ A a s, (Ok a, s).
#[global] Instance py_bind {S} : MBind (py S) := λ A B f c s,
  match c s with
  | (Ok a, s') => f a s'
  | (Raise e, s') => (Raise e, s')
  end.

Definition py_raise {S A} (e : exn) : py S A := λ s, (Raise e, s).
Definition py_lift {S A} (r : result A) : py S A := λ s, (r, s).
Definition py_modify {S} (f : S → S) : py S unit := λ s, (Ok tt, f s).

(** *** Dictionaries *)

(** [d.get(k, dflt)] *)
Definition dict_get_default (d : gmap string pyval) (k : string) (dflt : pyval)
  : pyval :=
  default dflt (d !! k).

(** [d.get(k)], which is [d.get(k, None)] *)
Definition dict_get (d : gmap string pyval) (k : string) : pyval :=
  dict_get_default d k PNone.

(** A dict display [{k1: v1, ..., kn: vn}]: entries are stored left to
    right, a later duplicate key replacing an earlier one. *)
Definition dict_display (entries : list (string * pyval)) : gmap string pyval :=
  foldl (λ d kv, <[kv.1 := kv.2]> d) ∅ entries.

(** Looking up the attribute [get] on an object: the bound method of a
    dict, [AttributeError] on everything else a JSON body can hold. *)
Definition getattr_get (obj : pyval) : result (string → pyval → pyval) :=
  match obj with
  | PDict d => Ok (dict_get_default d)
  | _ => Raise (Exn AttributeError
                  ("'" +:+ type_name obj +:+ "' object has no attribute 'get'"))
  end.

End Py.
Export Py.

(** ** Nutrient normalization: [extract_kcal] *)

(** The dict display assigned to [data], given the bound method
    [get = nutriments.get]. *)
Definition extract_kcal_data (get : string → pyval) : gmap string pyval :=
  dict_display
    [ ("kcal_100g", py_or (get "energy-kcal_100g") (get "energy-kcal_value"));
      ("protein_100g", get "proteins_100g");
      ("fat_100g", get "fat_100g");
      ("carbs_100g", get "carbohydrates_100g");
      ("kcal_serving", get "energy-kcal_serving");
      ("protein_serving", get "proteins_serving");
      ("fat_serving", get "fat_serving");
      ("carbs_serving", get "carbohydrates_serving") ].

(** [{k: v for k, v in data.items() if v is not None}] *)
Definition drop_none (data : gmap string pyval) : gmap string pyval :=
  filter (λ kv : string * pyval, kv.2 ≠ PNone) data.

(** [extract_kcal(nutriments)] for an arbitrary argument object.  The first
    statement, [get = nutriments.get], raises unless the argument is a
    dict; the value returned is a dict. *)
Definition extract_kcal (nutriments : pyval) : result (gmap string pyval) :=
  get ← getattr_get nutriments;
  let data := extract_kcal_data (λ k, get k PNone) in
  mret (drop_none data).

(** ** The HTTP client library, as far as the program uses it

    [requests.get], [Response.raise_for_status] and [Response.json] belong
    to the [requests] package, not to this program.  What they do is given
    by the network the program talks to: a [server] maps a request to
    either an exception raised by [requests.get] (transport failure) or a
    response, and a response carries what [r.json()] will do. *)

Module Requests.

(** The arguments of one [requests.get(url, headers=..., params=...,
    timeout=...)] call. *)
Record request : Type := Request {
  req_url : string;
  req_headers : gmap string pyval;
  req_params : gmap string pyval;
  req_timeout : Z
}.

Record response : Type := Response {
  status_code : Z;
  reason : string;
  resp_url : string;
  (** the outcome of [r.json()]: the decoded body, or the decoder's
      exception *)
  resp_json : result pyval
}.

(** The world outside the process, and the log of the requests issued. *)
Record network : Type := Network {
  server : request → result response;
  sent : list request
}.

(** [requests.get(...)]: one request goes out, the server's answer comes
    back (a raised exception or a response object). *)
Definition get (url : string) (headers params : gmap string pyval) (timeout : Z)
  : py network response :=
  λ n, let rq := Request url headers params timeout in
       (server n rq, Network (server n) (sent n ++ [rq])).

(** [r.raise_for_status()]: [HTTPError] for a 4xx or 5xx status, nothing
    for any other status. *)
Definition raise_for_status (r : response) : result unit :=
  let code := status_code r in
  if ((400 <=? code) && (code <? 500))%Z then
    Raise (Exn HTTPError (pretty code +:+ " Client Error: " +:+ reason r
                          +:+ " for url: " +:+ resp_url r))
  else if ((500 <=? code) && (code <? 600))%Z then
    Raise (Exn HTTPError (pretty code +:+ " Server Error: " +:+ reason r
                          +:+ " for url: " +:+ resp_url r))
  else Ok tt.

(** [r.json()] *)
Definition json (r : response) : result pyval := resp_json r.

End Requests.

(** ** The two fetch functions *)

Definition BASE : string := "https://world.openfoodfacts.org".

Definition HEADERS : gmap string pyval :=
  dict_display
    [ ("User-Agent",
       PStr "Darcons-Trade-CalorieFetcher/1.0 (+https://darcons-trade.example)") ].

(** The values Python substitutes for omitted keyword arguments. *)
Definition default_lang : pyval := PStr "ru".
Definition default_country : pyval := PStr "ru".
Definition default_page_size : pyval := PInt 5.

(** [get_product_by_barcode(barcode, fields, lang, country)] *)
Definition get_product_by_barcode (barcode : string) (fields lang country : pyval)
  : py Requests.network pyval :=
  let fields :=
    if is_none fields
    then PStr "code,product_name,nutriments,brands,quantity,serving_size,language,lang,lc"
    else fields in
  let url := BASE +:+ "/api/v2/product/" +:+ barcode in
  let params := dict_display [ ("fields", fields); ("lc", lang); ("cc", country) ] in
  r ← Requests.get url HEADERS params 20;
  py_lift (Requests.raise_for_status r);;
  py_lift (Requests.json r).

(** [search_products(query, page_size, fields, lang, country)] *)
Definition search_products (query : string) (page_size fields lang country : pyval)
  : py Requests.network pyval :=
  let fields :=
    if is_none fields
    then PStr "code,product_name,brands,nutriments,quantity,serving_size,ecoscore_grade"
    else fields in
  let url := BASE +:+ "/api/v2/search" in
  let params :=
    dict_display
      [ ("search_terms", PStr query);
        ("fields", fields);
        ("page_size", page_size);
        ("lc", lang);
        ("cc", country) ] in
  r ← Requests.get url HEADERS params 20;
  py_lift (Requests.raise_for_status r);;
  py_lift (Requests.json r).

(** ** The background worker: [SearchWorker] *)

(** What a worker can emit: [finished = pyqtSignal(dict)] and
    [error = pyqtSignal(str)]. *)
Inductive signal : Type :=
| finished (products : gmap string pyval)
| error (message : string).

(** The state a running worker acts on: the network and the signals it has
    emitted so far. *)
Record thread : Type := Thread {
  net : Requests.network;
  emitted : list signal
}.

Definition on_net {A} (c : py Requests.network A) : py thread A :=
  λ t, let '(r, n) := c (net t) in (r, Thread n (emitted t)).

Definition emit (sig : signal) : py thread unit :=
  py_modify (λ t, Thread (net t) (emitted t ++ [sig])).

(** [self.finished.emit(obj)]: the signal is declared with argument type
    [dict]; the binding raises [TypeError] on any other object (the
    wording of its message is the binding's own and is only
    approximated here). *)
Definition finished_emit (obj : pyval) : py thread unit :=
  match obj with
  | PDict d => emit (finished d)
  | _ => py_raise (Exn TypeError
           ("SearchWorker.finished[dict].emit(): argument 1 has unexpected type '"
            +:+ type_name obj +:+ "'"))
  end.

(** [self.error.emit(msg)] *)
Definition error_emit (msg : string) : py thread unit := emit (error msg).

(** [try: body / except RequestException as e: h1(e) / except Exception as
    e: h2(e)].  Every exception of the model is an [Exception]. *)
Definition try_except {S A} (body : py S A) (on_request_exception on_exception : exn → py S A)
  : py S A :=
  λ s, match body s with
       | (Ok a, s') => (Ok a, s')
       | (Raise e, s') =>
           if is_request_exception (exn_class e)
           then on_request_exception e s'
           else on_exception e s'
       end.

(** [SearchWorker.run], for a worker built as
    [SearchWorker(search_type, query)]. *)
Definition run (search_type query : string) : py thread unit :=
  try_except
    ((products ←
        if String.eqb search_type "barcode" then
          result ← on_net (get_product_by_barcode query PNone default_lang default_country);
          get ← py_lift (getattr_get result);
          if truthy (get "product" PNone) then
            (* result["product"]: the key is there, get just returned it *)
            mret (PDict (dict_display
                           [ ("products", PList [get "product" PNone]) ]))
          else
            mret (PDict (dict_display [ ("products", PList []) ]))
        else
          on_net (search_products query (PInt 10) PNone default_lang default_country);
      finished_emit products))
    (λ e, error_emit ("Ошибка сети: " +:+ exn_str e))
    (λ e, error_emit ("Ошибка: " +:+ exn_str e)).

(** A worker thread from start to end: it runs [run] once against the
    network [srv]. *)
Definition run_thread (srv : Requests.request → result Requests.response)
    (search_type query : string) : thread :=
  (run search_type query (Thread (Requests.Network srv []) [])).2.

(** ** Builtins used by the rendering code *)

Module Builtins.

(** A Rocq [string] holds a Python [str] as its UTF-8 bytes; a character of
    the Python string is a lead byte with the continuation bytes after
    it. *)
Definition is_continuation_byte (a : ascii) : bool :=
  let n := nat_of_ascii a in (128 <=? n)%nat && (n <? 192)%nat.

(** Splits a string into its characters.  The accumulator [cont] holds the
    continuation bytes met since the last lead byte, scanning from the
    right. *)
Fixpoint chars_from_right (s : string) : string * list string :=
  match s with
  | EmptyString => (EmptyString, [])
  | String a rest =>
      let '(cont, acc) := chars_from_right rest in
      if is_continuation_byte a then (String a cont, acc)
      else (EmptyString, String a cont :: acc)
  end.

Definition chars (s : string) : list string :=
  let '(cont, acc) := chars_from_right s in
  match cont with EmptyString => acc | _ => cont :: acc end.

(** [iter(v)] run to exhaustion: the elements a [for] loop over [v]
    visits; [TypeError] when [v] is not iterable. *)
Definition py_iter (v : pyval) : result (list pyval) :=
  match v with
  | PList l => Ok l
  | PStr s => Ok (PStr <$> chars s)
  | PDict d => Ok (PStr <$> (map_to_list d).*1)
  | _ => Raise (Exn TypeError ("'" +:+ type_name v +:+ "' object is not iterable"))
  end.

(** [len(v)] *)
Definition py_len (v : pyval) : result nat :=
  match v with
  | PList l => Ok (length l)
  | PStr s => Ok (length (chars s))
  | PDict d => Ok (size d)
  | _ => Raise (Exn TypeError ("object of type '" +:+ type_name v +:+ "' has no len()"))
  end.

(** A piece of text handed to the toolkit.  [StrOf v] stands for [str(v)]
    of a float, a list or a dict, whose digits and layout are left
    unevaluated. *)
Inductive text : Type :=
| Text (s : string)
| StrOf (v : pyval).

(** [str(v)] *)
Definition py_str (v : pyval) : text :=
  match v with
  | PStr s => Text s
  | PNone => Text "None"
  | PBool true => Text "True"
  | PBool false => Text "False"
  | PInt z => Text (pretty z)
  | PFloat _ | PList _ | PDict _ => StrOf v
  end.

(** [for x in xs: body(x)] over an already materialised sequence. *)
Fixpoint py_for {S A} (xs : list A) (body : A → py S unit) : py S unit :=
  match xs with
  | [] => mret tt
  | x :: xs' => body x;; py_for xs' body
  end.

(** [enumerate(xs)] *)
Definition enumerate {A} (xs : list A) : list (nat * A) := imap pair xs.

End Builtins.
Export Builtins.

(** ** The widgets the callbacks touch *)

Module Qt.

Record progress_bar : Type := ProgressBar {
  isVisible : bool;
  minimum : Z;
  maximum : Z
}.

Definition setVisible (b : bool) (p : progress_bar) : progress_bar :=
  ProgressBar b (minimum p) (maximum p).

Definition setRange (lo hi : Z) (p : progress_bar) : progress_bar :=
  ProgressBar (isVisible p) lo hi.

(** A [QTableWidget]: its dimensions and the text of the items set so
    far, by (row, column). *)
Record table_widget : Type := TableWidget {
  rowCount : nat;
  columnCount : nat;
  items : gmap (nat * nat) text
}.

(** [table.setRowCount(n)]: rows from [n] on are removed with their
    items. *)
Definition setRowCount (n : nat) (t : table_widget) : table_widget :=
  TableWidget n (columnCount t)
    (filter (λ kv : (nat * nat) * text, kv.1.1 < n) (items t)).

(** [table.setItem(row, column, item)]: ignored outside the table. *)
Definition setItem (row column : nat) (item : text) (t : table_widget)
  : table_widget :=
  if ((row <? rowCount t) && (column <? columnCount t))%nat
  then TableWidget (rowCount t) (columnCount t) (<[(row, column) := item]> (items t))
  else t.

(** [QTableWidgetItem(obj)]: the text of the new item.  A [str] becomes
    the item's text.  An [int] selects the overload
    [QTableWidgetItem(type: int)], an item without text; [type] is a C
    [int], so an integer outside 32 bits raises [OverflowError].  [None]
    is taken too and gives an item without text.  No overload takes any
    other object of the model; of the message of that [TypeError] only
    the first line is kept. *)
Definition QTableWidgetItem (obj : pyval) : result text :=
  match obj with
  | PStr s => Ok (Text s)
  | PBool _ | PNone => Ok (Text "")
  | PInt z =>
      if ((-2147483648 <=? z) && (z <=? 2147483647))%Z then Ok (Text "")
      else Raise (Exn OverflowError
                    "argument 1 overflowed: value must be in the range -2147483648 to 2147483647")
  | _ => Raise (Exn TypeError "arguments did not match any overloaded call:")
  end.

Inductive icon : Type := Warning | Critical | Information.

(** A modal [QMessageBox] that was shown. *)
Record message_box : Type := MessageBox {
  box_icon : icon;
  box_title : string;
  box_text : string
}.

End Qt.
Export Qt.

(** ** The main window: [CalorieFinderApp] *)

(** The methods of the window that are connected to worker signals. *)
Inductive finished_slot : Type :=
| on_barcode_search_finished_slot
| on_name_search_finished_slot.

Inductive error_slot : Type :=
| on_search_error_slot.

Inductive thread_state : Type := NotStarted | Running | Finished.

(** A [SearchWorker] object: the two constructor arguments, the slots
    connected to its two signals, and where its thread stands. *)
Record worker : Type := Worker {
  search_type : string;
  query : string;
  finished_connections : list finished_slot;
  error_connections : list error_slot;
  state : thread_state
}.

(** The attributes of [self] that the callbacks read or write, and the
    worker objects created so far ([threads], in creation order; the
    attribute [self.search_worker] is an index into it).  [message_boxes]
    logs the modal dialogs in the order they were shown. *)
Record app : Type := App {
  barcode_search_btn : bool;          (* isEnabled() *)
  barcode_progress : progress_bar;
  barcode_table : table_widget;
  name_search_btn : bool;             (* isEnabled() *)
  name_progress : progress_bar;
  name_table : table_widget;
  statusBar : string;                 (* currentMessage() *)
  message_boxes : list message_box;
  threads : list worker;
  search_worker : option nat
}.

Definition set_barcode_search_btn (b : bool) (a : app) : app :=
  App b (barcode_progress a) (barcode_table a) (name_search_btn a)
      (name_progress a) (name_table a) (statusBar a) (message_boxes a)
      (threads a) (search_worker a).

Definition set_barcode_progress (f : progress_bar → progress_bar) (a : app) : app :=
  App (barcode_search_btn a) (f (barcode_progress a)) (barcode_table a)
      (name_search_btn a) (name_progress a) (name_table a) (statusBar a)
      (message_boxes a) (threads a) (search_worker a).

Definition set_barcode_table (t : table_widget) (a : app) : app :=
  App (barcode_search_btn a) (barcode_progress a) t (name_search_btn a)
      (name_progress a) (name_table a) (statusBar a) (message_boxes a)
      (threads a) (search_worker a).

Definition set_name_search_btn (b : bool) (a : app) : app :=
  App (barcode_search_btn a) (barcode_progress a) (barcode_table a) b
      (name_progress a) (name_table a) (statusBar a) (message_boxes a)
      (threads a) (search_worker a).

Definition set_name_progress (f : progress_bar → progress_bar) (a : app) : app :=
  App (barcode_search_btn a) (barcode_progress a) (barcode_table a)
      (name_search_btn a) (f (name_progress a)) (name_table a) (statusBar a)
      (message_boxes a) (threads a) (search_worker a).

Definition set_name_table (t : table_widget) (a : app) : app :=
  App (barcode_search_btn a) (barcode_progress a) (barcode_table a)
      (name_search_btn a) (name_progress a) t (statusBar a) (message_boxes a)
      (threads a) (search_worker a).

Definition showMessage (msg : string) (a : app) : app :=
  App (barcode_search_btn a) (barcode_progress a) (barcode_table a)
      (name_search_btn a) (name_progress a) (name_table a) msg
      (message_boxes a) (threads a) (search_worker a).

Definition show_message_box (box : message_box) (a : app) : app :=
  App (barcode_search_btn a) (barcode_progress a) (barcode_table a)
      (name_search_btn a) (name_progress a) (name_table a) (statusBar a)
      (message_boxes a ++ [box]) (threads a) (search_worker a).

Definition set_threads (f : list worker → list worker) (a : app) : app :=
  App (barcode_search_btn a) (barcode_progress a) (barcode_table a)
      (name_search_btn a) (name_progress a) (name_table a) (statusBar a)
      (message_boxes a) (f (threads a)) (search_worker a).

Definition set_search_worker (w : nat) (a : app) : app :=
  App (barcode_search_btn a) (barcode_progress a) (barcode_table a)
      (name_search_btn a) (name_progress a) (name_table a) (statusBar a)
      (message_boxes a) (threads a) (Some w).

(** The window as [initUI] leaves it. *)
Definition initUI : app :=
  App true (ProgressBar false 0 100) (TableWidget 0 8 ∅)
      true (ProgressBar false 0 100) (TableWidget 0 8 ∅)
      "Готов к поиску" [] [] None.

(** *** Rendering *)

(** The body of the [for] loop of [display_products_in_table].  An item
    built from [str(x)] has that text. *)
Definition display_row (row : nat) (product : pyval) : py table_widget unit :=
  get ← py_lift (getattr_get product);
  nutriments ← py_lift (extract_kcal (get "nutriments" (PDict ∅)));
  item ← py_lift (QTableWidgetItem (get "code" (PStr "N/A")));
  py_modify (setItem row 0 item);;
  item ← py_lift (QTableWidgetItem (get "product_name" (PStr "N/A")));
  py_modify (setItem row 1 item);;
  item ← py_lift (QTableWidgetItem (get "brands" (PStr "N/A")));
  py_modify (setItem row 2 item);;
  let kcal := dict_get_default nutriments "kcal_100g" (PStr "N/A") in
  py_modify (setItem row 3 (py_str kcal));;
  let protein := dict_get_default nutriments "protein_100g" (PStr "N/A") in
  py_modify (setItem row 4 (py_str protein));;
  let fat := dict_get_default nutriments "fat_100g" (PStr "N/A") in
  py_modify (setItem row 5 (py_str fat));;
  let carbs := dict_get_default nutriments "carbs_100g" (PStr "N/A") in
  py_modify (setItem row 6 (py_str carbs));;
  let serving := get "serving_size" (PStr "N/A") in
  py_modify (setItem row 7 (py_str serving)).

(** [display_products_in_table(table, products)], acting on [table]. *)
Definition display_products_in_table (products : gmap string pyval)
  : py table_widget unit :=
  let products_list := dict_get_default products "products" (PList []) in
  n ← py_lift (py_len products_list);
  py_modify (setRowCount n);;
  rows ← py_lift (py_iter products_list);
  py_for (enumerate rows) (λ '(row, product), display_row row product).

(** Runs a computation on one table of the window. *)
Definition on_table {A} (table : app → table_widget)
    (set_table : table_widget → app → app) (c : py table_widget A) : py app A :=
  λ a, let '(r, t) := c (table a) in (r, set_table t a).

(** *** Callbacks *)

Definition on_barcode_search_finished (products : gmap string pyval) : py app unit :=
  py_modify (set_barcode_search_btn true);;
  py_modify (set_barcode_progress (setVisible false));;
  on_table barcode_table set_barcode_table (display_products_in_table products);;
  count ← py_lift (py_len (dict_get_default products "products" (PList [])));
  py_modify (showMessage ("Найдено продуктов: " +:+ pretty count)).

Definition on_name_search_finished (products : gmap string pyval) : py app unit :=
  py_modify (set_name_search_btn true);;
  py_modify (set_name_progress (setVisible false));;
  on_table name_table set_name_table (display_products_in_table products);;
  count ← py_lift (py_len (dict_get_default products "products" (PList [])));
  py_modify (showMessage ("Найдено продуктов: " +:+ pretty count)).

Definition on_search_error (error_message : string) : py app unit :=
  py_modify (set_barcode_search_btn true);;
  py_modify (set_name_search_btn true);;
  py_modify (set_barcode_progress (setVisible false));;
  py_modify (set_name_progress (setVisible false));;
  py_modify (show_message_box (MessageBox Critical "Ошибка" error_message));;
  py_modify (showMessage "Ошибка при поиске").

(** *** Starting a search *)

(** [SearchWorker(search_type, query)]: a new worker object, not yet
    connected nor started; the result is its index. *)
Definition SearchWorker (search_type query : string) : py app nat :=
  λ a, (Ok (length (threads a)),
        set_threads (λ ts, ts ++ [Worker search_type query [] [] NotStarted]) a).

Definition finished_connect (w : nat) (slot : finished_slot) : py app unit :=
  py_modify (set_threads (alter (λ wk,
    Worker (search_type wk) (query wk) (finished_connections wk ++ [slot])
           (error_connections wk) (state wk)) w)).

Definition error_connect (w : nat) (slot : error_slot) : py app unit :=
  py_modify (set_threads (alter (λ wk,
    Worker (search_type wk) (query wk) (finished_connections wk)
           (error_connections wk ++ [slot]) (state wk)) w)).

Definition set_state (st : thread_state) (wk : worker) : worker :=
  Worker (search_type wk) (query wk) (finished_connections wk)
         (error_connections wk) st.

(** [worker.start()] *)
Definition start (w : nat) : py app unit :=
  py_modify (set_threads (alter (set_state Running) w)).

(** [search_by_barcode], from its second statement on: [barcode] is the
    value of the first one, the stripped text of the input field. *)
Definition search_by_barcode (barcode : string) : py app unit :=
  if String.eqb barcode "" then
    py_modify (show_message_box (MessageBox Warning "Ошибка" "Введите штрихкод"))
  else
    py_modify (set_barcode_search_btn false);;
    py_modify (set_barcode_progress (setVisible true));;
    py_modify (set_barcode_progress (setRange 0 0));;
    py_modify (showMessage "Поиск по штрихкоду...");;
    w ← SearchWorker "barcode" barcode;
    py_modify (set_search_worker w);;
    finished_connect w on_barcode_search_finished_slot;;
    error_connect w on_search_error_slot;;
    start w.

(** [search_by_name], likewise for the stripped text [name]. *)
Definition search_by_name (name : string) : py app unit :=
  if String.eqb name "" then
    py_modify (show_message_box
                 (MessageBox Warning "Ошибка" "Введите название продукта"))
  else
    py_modify (set_name_search_btn false);;
    py_modify (set_name_progress (setVisible true));;
    py_modify (set_name_progress (setRange 0 0));;
    py_modify (showMessage "Поиск по названию...");;
    w ← SearchWorker "name" name;
    py_modify (set_search_worker w);;
    finished_connect w on_name_search_finished_slot;;
    error_connect w on_search_error_slot;;
    start w.

(** *** The detail dialog *)

(** [table.item(row, column).text()]: [table.item] gives [None] where no
    item was set, and [None] has no [text]. *)
Definition item_text (row column : nat) (t : table_widget) : result text :=
  match items t !! (row, column) with
  | Some item => Ok item
  | None => Raise (Exn AttributeError "'NoneType' object has no attribute 'text'")
  end.

(** The dict display assigned to [product_info] in
    [on_product_double_click], in the order of its entries. *)
Definition product_info (row : nat) (table : table_widget)
  : result (list (string * text)) :=
  c0 ← item_text row 0 table;
  c1 ← item_text row 1 table;
  c2 ← item_text row 2 table;
  c3 ← item_text row 3 table;
  c4 ← item_text row 4 table;
  c5 ← item_text row 5 table;
  c6 ← item_text row 6 table;
  c7 ← item_text row 7 table;
  mret [ ("Штрихкод", c0); ("Название", c1); ("Бренд", c2);
         ("Калории/100г", c3); ("Белки/100г", c4); ("Жиры/100г", c5);
         ("Углеводы/100г", c6); ("Порция", c7) ].

(** The pieces of one line [f"{key}: {value}"]. *)
Definition detail_line (entry : string * text) : list text :=
  [ Text (entry.1 +:+ ": "); entry.2 ].

(** [sep.join(lines)], as the sequence of its pieces. *)
Fixpoint join_lines (sep : text) (lines : list (list text)) : list text :=
  match lines with
  | [] => []
  | [line] => line
  | line :: rest => line ++ sep :: join_lines sep rest
  end.

(** The information dialog of [on_product_double_click]: its title and the
    pieces that make up its text, in order. *)
Record detail_dialog : Type := DetailDialog {
  detail_title : string;
  detail_text : list text
}.

(** [on_product_double_click(index)] for [row = index.row()]: the dialog
    it shows, or the exception it raises before showing one.  It reads
    [self.name_table] and changes nothing of the window. *)
Definition on_product_double_click (row : nat) (a : app) : result detail_dialog :=
  info ← product_info row (name_table a);
  mret (DetailDialog "Детальная информация"
          (join_lines (Text (String "010" EmptyString)) (detail_line <$> info))).

(** ** The event loop

    Everything the window does happens in the main thread, one event at a
    time: a search is triggered (button click or Enter in the input
    field), or a worker thread has run to its end and the signal it
    emitted is delivered to the connected slots.  A worker reads nothing
    of the window, so the event [worker_completes] stands for both its
    [run], against the network as it answered this worker, and the
    delivery of its signal in the main thread.

    Left out: the nested event loop of a modal dialog (a dialog is logged
    and returns at once), and the two ways in which the runtime ends the
    process.  An exception that escapes a slot is logged in [uncaught],
    and the loop of this section goes on where the process is gone; a
    worker object lives on until its thread has completed, also where
    the runtime destroys it earlier.  The loop of this section therefore
    has every run of the program and more: what holds of all its runs
    holds of all runs of the program, but that it reaches a state does
    not show that the program does.  The section on the runtime below
    adds the two rules, and the moment at which a thread enters [run] and
    sends its request, which [complete] puts into [requests_sent] only
    when the worker completes. *)

Inductive event : Type :=
| trigger_search_by_barcode (barcode : string)
| trigger_search_by_name (name : string)
| worker_completes (w : nat) (srv : Requests.request → result Requests.response).

(** One call of a slot: which worker's signal, which slot, which
    argument. *)
Record delivery : Type := Delivery {
  from_worker : nat;
  to_slot : finished_slot + error_slot;
  payload : signal
}.

Record process : Type := Process {
  window : app;
  delivered : list delivery;
  requests_sent : list (nat * Requests.request);
  uncaught : list exn
}.

Definition call_finished_slot (slot : finished_slot) (products : gmap string pyval)
  : py app unit :=
  match slot with
  | on_barcode_search_finished_slot => on_barcode_search_finished products
  | on_name_search_finished_slot => on_name_search_finished products
  end.

Definition call_error_slot (slot : error_slot) (message : string) : py app unit :=
  match slot with
  | on_search_error_slot => on_search_error message
  end.

(** Runs a method of the window inside the process.  An exception that
    escapes it is logged; what the runtime makes of it is left to
    [advance] below. *)
Definition in_window (body : py app unit) (p : process) : process :=
  let '(r, a) := body (window p) in
  Process a (delivered p) (requests_sent p)
          (match r with Ok _ => uncaught p | Raise e => uncaught p ++ [e] end).

Definition log_delivery (d : delivery) (p : process) : process :=
  Process (window p) (delivered p ++ [d]) (requests_sent p) (uncaught p).

(** Delivers one signal of worker [w] to the slots connected to it. *)
Definition dispatch (w : nat) (wk : worker) (sig : signal) (p : process) : process :=
  match sig with
  | finished products =>
      foldl (λ p slot,
               in_window (call_finished_slot slot products)
                         (log_delivery (Delivery w (inl slot) sig) p))
            p (finished_connections wk)
  | error message =>
      foldl (λ p slot,
               in_window (call_error_slot slot message)
                         (log_delivery (Delivery w (inr slot) sig) p))
            p (error_connections wk)
  end.

(** Worker [w], if it is running, performs [run] against the network
    [srv] and ends; the signals it emitted are then delivered.  The
    request of [run] is logged here, with the answer, though it went out
    when the thread entered [run]; and the worker is taken to exist,
    whether or not [self.search_worker] still refers to it ([advance]
    below has both moments apart and the rule for the second). *)
Definition complete (w : nat) (srv : Requests.request → result Requests.response)
    (p : process) : process :=
  match threads (window p) !! w with
  | Some wk =>
      match state wk with
      | Running =>
          let t := run_thread srv (search_type wk) (query wk) in
          let p' :=
            Process (set_threads (alter (set_state Finished) w) (window p))
                    (delivered p)
                    (requests_sent p ++ (pair w <$> Requests.sent (net t)))
                    (uncaught p) in
          foldl (λ p sig, dispatch w wk sig p) p' (emitted t)
      | _ => p
      end
  | None => p
  end.

Definition step (p : process) (ev : event) : process :=
  match ev with
  | trigger_search_by_barcode barcode => in_window (search_by_barcode barcode) p
  | trigger_search_by_name name => in_window (search_by_name name) p
  | worker_completes w srv => complete w srv p
  end.

Definition exec (evs : list event) (p : process) : process := foldl step p evs.

(** The process right after the window has been built. *)
Definition boot : process := Process initUI [] [] [].

(** ** The vocabulary of the specification

    Names for what the specification talks about, used to state the
    properties below.  None of these is part of the program. *)

(** The record [extract_kcal] returns for a mapping (lemma
    [extract_kcal_dict]). *)
Definition normalize (raw : gmap string pyval) : gmap string pyval :=
  drop_none (extract_kcal_data (dict_get raw)).

(** The seven target fields that have one provider key each, as
    (target field, provider key). *)
Definition direct_fields : list (string * string) :=
  [ ("protein_100g", "proteins_100g");
    ("fat_100g", "fat_100g");
    ("carbs_100g", "carbohydrates_100g");
    ("kcal_serving", "energy-kcal_serving");
    ("protein_serving", "proteins_serving");
    ("fat_serving", "fat_serving");
    ("carbs_serving", "carbohydrates_serving") ].

(** The eight target fields with their provider key; for [kcal_100g] it
    is the primary key. *)
Definition provider_keys : list (string * string) :=
  ("kcal_100g", "energy-kcal_100g") :: direct_fields.

(** Field [out] of the record is present exactly when key [prov] of the
    raw mapping holds a non-null value, and then carries that value. *)
Definition passes_through (raw : gmap string pyval) (out prov : string) : Prop :=
  ∀ v, normalize raw !! out = Some v ↔ raw !! prov = Some v ∧ v ≠ PNone.

(** The two provider endpoints. *)
Definition product_endpoint (barcode : string) : string :=
  BASE +:+ "/api/v2/product/" +:+ barcode.

Definition search_endpoint : string := BASE +:+ "/api/v2/search".

(** Where a worker built as [SearchWorker(search_type, query)] sends its
    request. *)
Definition endpoint (search_type query : string) : string :=
  if String.eqb search_type "barcode" then product_endpoint query
  else search_endpoint.

(** The server's answer to the requests that go to [url]. *)
Definition answers (srv : Requests.request → result Requests.response)
    (url : string) (answer : result Requests.response) : Prop :=
  ∀ rq, Requests.req_url rq = url → srv rq = answer.

(** A status in the 2xx range. *)
Definition is_2xx (code : Z) : Prop := (200 <= code < 300)%Z.

(** The payload of a successful lookup with the given rows. *)
Definition products_of (rows : list pyval) : gmap string pyval :=
  {[ "products" := PList rows ]}.

(** The two search slots of the window. *)
Inductive search_slot : Type := barcode_slot | name_slot.

Definition trigger (slot : search_slot) (text : string) : event :=
  match slot with
  | barcode_slot => trigger_search_by_barcode text
  | name_slot => trigger_search_by_name text
  end.

Definition slot_type (slot : search_slot) : string :=
  match slot with barcode_slot => "barcode" | name_slot => "name" end.

(** The in-progress indicator of a slot is cleared: progress bar hidden,
    search button enabled. *)
Definition indicator_cleared (slot : search_slot) (a : app) : Prop :=
  match slot with
  | barcode_slot =>
      barcode_search_btn a = true ∧ isVisible (barcode_progress a) = false
  | name_slot =>
      name_search_btn a = true ∧ isVisible (name_progress a) = false
  end.

(** The slot a worker belongs to, by its [search_type]. *)
Definition slot_of (wk : worker) : search_slot :=
  if String.eqb (search_type wk) "barcode" then barcode_slot else name_slot.

(** The worker objects [search_by_barcode] and [search_by_name] create,
    once connected and started. *)
Definition created_by_search (wk : worker) : Prop :=
  (search_type wk = "barcode"
   ∧ finished_connections wk = [on_barcode_search_finished_slot]
   ∨ search_type wk = "name"
   ∧ finished_connections wk = [on_name_search_finished_slot])
  ∧ error_connections wk = [on_search_error_slot].



(** The computation [c] leaves the component [f] of the state as it was,
    whether it returns or raises. *)
Definition unchanged {S A X} (f : S → X) (c : py S A) : Prop :=
  ∀ s, f (c s).2 = f s.

(** What a fetch function makes of the server's answer: the exception of
    [requests.get], else the one of [raise_for_status], else the outcome
    of [r.json()]. *)
Definition http_result (answer : result Requests.response) : result pyval :=
  r ← answer; Requests.raise_for_status r;; Requests.json r.

(** The two kinds of failure report of the specification, as the worker
    words them on its [error] signal. *)
Definition NetworkError (msg : string) : signal := error ("Ошибка сети: " +:+ msg).
Definition UnexpectedError (msg : string) : signal := error ("Ошибка: " +:+ msg).

(** The report for an exception [e], by the [except] clause that catches
    it. *)
Definition failure_report (e : exn) : signal :=
  if is_request_exception (exn_class e)
  then NetworkError (exn_str e)
  else UnexpectedError (exn_str e).

(** The request a worker built as [SearchWorker(search_type, query)]
    sends, and the signal it emits for a given result of its fetch: the
    two facts about [run] that the proofs below rest on (lemma
    [run_thread_eq]). *)
Definition worker_request (search_type query : string) : Requests.request :=
  if String.eqb search_type "barcode" then
    Requests.Request (product_endpoint query) HEADERS
      (dict_display
         [ ("fields",
            PStr "code,product_name,nutriments,brands,quantity,serving_size,language,lang,lc");
           ("lc", PStr "ru"); ("cc", PStr "ru") ]) 20
  else
    Requests.Request search_endpoint HEADERS
      (dict_display
         [ ("search_terms", PStr query);
           ("fields",
            PStr "code,product_name,brands,nutriments,quantity,serving_size,ecoscore_grade");
           ("page_size", PInt 10); ("lc", PStr "ru"); ("cc", PStr "ru") ]) 20.

Definition worker_signal (search_type : string) (fetched : result pyval) : signal :=
  match fetched with
  | Raise e => failure_report e
  | Ok (PDict body) =>
      if String.eqb search_type "barcode" then
        finished (products_of
                    (if truthy (dict_get body "product")
                     then [dict_get body "product"] else []))
      else finished body
  | Ok v =>
      if String.eqb search_type "barcode" then
        UnexpectedError ("'" +:+ type_name v +:+ "' object has no attribute 'get'")
      else
        UnexpectedError
          ("SearchWorker.finished[dict].emit(): argument 1 has unexpected type '"
           +:+ type_name v +:+ "'")
  end.

(** A server that gives the same answer to every request. *)
Definition always (answer : result Requests.response)
  : Requests.request → result Requests.response :=
  λ _, answer.

(** The first clause of the failure classification as the specification
    words it: every status outside 2xx is reported as a network error. *)
Definition non_2xx_is_network_error : Prop :=
  ∀ srv search_type query code reason url body,
    ¬ is_2xx code →
    answers srv (endpoint search_type query)
            (Ok (Requests.Response code reason url body)) →
    ∃ msg, emitted (run_thread srv search_type query) = [NetworkError msg].

(** The second half of the barcode contract as the specification words
    it: a product record that is present is handed on as the one row. *)
Definition present_product_is_wrapped : Prop :=
  ∀ srv query code reason url body (product : gmap string pyval),
    is_2xx code →
    answers srv (product_endpoint query)
            (Ok (Requests.Response code reason url (Ok (PDict body)))) →
    body !! "product" = Some (PDict product) →
    emitted (run_thread srv "barcode" query)
    = [finished (products_of [PDict product])].

(** The slot that a signal of a worker of [slot] is delivered to, and the
    method call this amounts to. *)
Definition target (slot : search_slot) (sig : signal) : finished_slot + error_slot :=
  match sig, slot with
  | finished _, barcode_slot => inl on_barcode_search_finished_slot
  | finished _, name_slot => inl on_name_search_finished_slot
  | error _, _ => inr on_search_error_slot
  end.

Definition callback (slot : search_slot) (sig : signal) : py app unit :=
  match sig, slot with
  | finished products, barcode_slot => on_barcode_search_finished products
  | finished products, name_slot => on_name_search_finished products
  | error message, _ => on_search_error message
  end.

(** The signal of a worker, from what the server does with its
    request. *)
Definition outcome (srv : Requests.request → result Requests.response)
    (search_type query : string) : signal :=
  worker_signal search_type
    (http_result (srv (worker_request search_type query))).

(** All worker objects of the process were made by one of the two search
    methods. *)
Definition well_connected (p : process) : Prop :=
  Forall created_by_search (threads (window p)).

(** The worker object a search on [slot] for [text] leaves in [threads]. *)
Definition started_worker (slot : search_slot) (text : string) : worker :=
  Worker (slot_type slot) text
    [ match slot with
      | barcode_slot => on_barcode_search_finished_slot
      | name_slot => on_name_search_finished_slot
      end ]
    [ on_search_error_slot ] Running.

(** A provider that knows two products and answers a barcode lookup for
    "123" with the first and any other request with the second. *)
Definition two_products (rq : Requests.request) : result Requests.response :=
  let code := if String.eqb (Requests.req_url rq) (product_endpoint "123")
              then "123" else "456" in
  Ok (Requests.Response 200 "OK" (Requests.req_url rq)
        (Ok (PDict {[ "product" := PDict {[ "code" := PStr code ]} ]}))).

(** *** Further vocabulary *)

(** The eight field names of a normalized record. *)
Definition target_fields : list string :=
  [ "kcal_100g"; "protein_100g"; "fat_100g"; "carbs_100g";
    "kcal_serving"; "protein_serving"; "fat_serving"; "carbs_serving" ].

(** The nine provider keys [extract_kcal] looks at. *)
Definition provider_fields : list string :=
  [ "energy-kcal_100g"; "energy-kcal_value"; "proteins_100g"; "fat_100g";
    "carbohydrates_100g"; "energy-kcal_serving"; "proteins_serving";
    "fat_serving"; "carbohydrates_serving" ].

(** An HTTP status that [raise_for_status] rejects. *)
Definition is_error_status (code : Z) : Prop := (400 <= code < 600)%Z.

(** A worker object as a search with a non-empty text makes it, started
    and possibly finished since. *)
Definition proper_worker (wk : worker) : Prop :=
  ∃ slot text st,
    text ≠ "" ∧ st ≠ NotStarted ∧ wk = set_state st (started_worker slot text).

(** [self.search_worker] refers to the worker created last, if any. *)
Definition handle_is_latest (a : app) : Prop :=
  match search_worker a with
  | None => threads a = []
  | Some w => S w = length (threads a)
  end.

(** What holds of a process at every moment. *)
Record consistent (p : process) : Prop := Consistent {
  workers_proper : Forall proper_worker (threads (window p));
  handle_latest : handle_is_latest (window p);
  deliveries_distinct : NoDup (from_worker <$> delivered p);
  delivered_finished :
    ∀ w, w ∈ from_worker <$> delivered p
         ↔ ∃ wk, threads (window p) !! w = Some wk ∧ state wk = Finished;
  requests_proper :
    ∀ w rq, (w, rq) ∈ requests_sent p →
            ∃ wk, threads (window p) !! w = Some wk
                  ∧ rq = worker_request (search_type wk) (query wk);
  eight_columns :
    columnCount (barcode_table (window p)) = 8
    ∧ columnCount (name_table (window p)) = 8
}.

(** Key [k] of a product is absent or holds a string. *)
Definition text_or_missing (d : gmap string pyval) (k : string) : Prop :=
  d !! k = None ∨ ∃ s, d !! k = Some (PStr s).

(** A product record of the shape the provider documents: a mapping whose
    [code], [product_name] and [brands], where present, are strings, and
    whose [nutriments], where present, is a mapping. *)
Definition well_formed_product (product : pyval) : Prop :=
  ∃ d, product = PDict d
       ∧ text_or_missing d "code"
       ∧ text_or_missing d "product_name"
       ∧ text_or_missing d "brands"
       ∧ (d !! "nutriments" = None ∨ ∃ nd, d !! "nutriments" = Some (PDict nd)).

(** A product the table cannot show: not a mapping, or a mapping whose
    [nutriments] is present and not a mapping (null, say). *)
Definition unrenderable_product (product : pyval) : Prop :=
  (∀ d, product ≠ PDict d)
  ∨ ∃ d v, product = PDict d ∧ d !! "nutriments" = Some v ∧ ∀ nd, v ≠ PDict nd.

(** [str] of a field, or of ['N/A'] where the field is missing. *)
Definition field_or_na (d : gmap string pyval) (k : string) : text :=
  py_str (dict_get_default d k (PStr "N/A")).

(** The normalized nutrients of a product; those of the empty mapping
    where the product has no [nutriments]. *)
Definition nutrients_of (d : gmap string pyval) : gmap string pyval :=
  normalize (match d !! "nutriments" with Some (PDict nd) => nd | _ => ∅ end).

(** What the eight cells of a product's row show. *)
Definition cell (product : pyval) (column : nat) : text :=
  match product with
  | PDict d =>
      match column with
      | 0 => field_or_na d "code"
      | 1 => field_or_na d "product_name"
      | 2 => field_or_na d "brands"
      | 3 => field_or_na (nutrients_of d) "kcal_100g"
      | 4 => field_or_na (nutrients_of d) "protein_100g"
      | 5 => field_or_na (nutrients_of d) "fat_100g"
      | 6 => field_or_na (nutrients_of d) "carbs_100g"
      | _ => field_or_na d "serving_size"
      end
  | _ => Text ""
  end.

(** The labels of the detail dialog, by column. *)
Definition detail_labels : list string :=
  [ "Штрихкод"; "Название"; "Бренд"; "Калории/100г"; "Белки/100г";
    "Жиры/100г"; "Углеводы/100г"; "Порция" ].

(** ** The event loop under the runtime

    Two rules of the runtime decide what becomes of searches that
    overlap; the program itself has no line for either.

    An exception that escapes a slot ends the process: PyQt5 (from 5.5
    on) calls [qFatal] for it unless an excepthook is installed, and the
    program installs none.

    A [QThread] object destroyed while its thread is running ends the
    process as well.  A worker object has one lasting reference, the
    attribute [self.search_worker]; once its thread executes [run], the
    frame of [run] holds a second one.  So the assignment to
    [self.search_worker] in [search_by_barcode] and [search_by_name]
    destroys the worker the attribute referred to, unless that worker's
    thread has entered [run] or has ended.

    A session is a process that is alive, with the workers whose thread
    has entered [run] and the requests that have gone out (a worker
    sends its request on entering [run]), or one that has died, of which
    only the cause and the slot calls made before are kept. *)

Inductive death : Type :=
| slot_raised (e : exn)
| thread_destroyed (w : nat).

Inductive session : Type :=
| Alive (p : process) (in_run : list nat) (requested : list (nat * Requests.request))
| Dead (why : death) (delivered_before : list delivery).





(** The session right after the window has been built. *)
Definition fresh : session := Alive boot [] [].

(** *** The vocabulary of overlapping searches *)








(** * Properties *)

(** ** Proof tools for the monad *)

Lemma unchanged_ret {S A X} (f : S → X) (a : A) : unchanged f (mret a : py S A).
Proof. by intros s. Qed.

Lemma unchanged_raise {S A X} (f : S → X) (e : exn) :
  unchanged f (py_raise e : py S A).
Proof. by intros s. Qed.

Lemma unchanged_lift {S A X} (f : S → X) (r : result A) :
  unchanged f (py_lift r : py S A).
Proof. by intros s. Qed.

Lemma unchanged_modify {S X} (f : S → X) (g : S → S) :
  (∀ s, f (g s) = f s) → unchanged f (py_modify g).
Proof. intros H s. apply H. Qed.

Lemma unchanged_bind {S A B X} (f : S → X) (c : py S A) (k : A → py S B) :
  unchanged f c → (∀ a, unchanged f (k a)) → unchanged f (c ≫= k).
Proof.
  intros Hc Hk s. unfold mbind, py_bind. specialize (Hc s).
  destruct (c s) as [[a | e] s']; simpl in *; [| done].
  by rewrite Hk.
Qed.

Lemma unchanged_for {S A X} (f : S → X) (xs : list A) (body : A → py S unit) :
  (∀ x, unchanged f (body x)) → unchanged f (py_for xs body).
Proof.
  intros Hb. induction xs as [| x xs IH]; simpl.
  - apply unchanged_ret.
  - apply unchanged_bind; [apply Hb | intros _; apply IH].
Qed.

Lemma unchanged_if {S A X} (f : S → X) (b : bool) (c1 c2 : py S A) :
  unchanged f c1 → unchanged f c2 → unchanged f (if b then c1 else c2).
Proof. by destruct b. Qed.

Create HintDb unchanged.
#[local] Hint Resolve unchanged_ret unchanged_raise unchanged_lift
  unchanged_bind unchanged_for unchanged_if : unchanged.

(** ** Nutrient normalization *)

Section Normalization.

Implicit Types (raw data : gmap string pyval) (v : pyval) (k : string).

Lemma lookup_drop_none data k v :
  drop_none data !! k = Some v ↔ data !! k = Some v ∧ v ≠ PNone.
Proof. unfold drop_none. by rewrite map_lookup_filter_Some. Qed.

Lemma extract_kcal_dict raw : extract_kcal (PDict raw) = Ok (normalize raw).
Proof. reflexivity. Qed.

Lemma dict_get_Some raw k v : raw !! k = Some v → dict_get raw k = v.
Proof. unfold dict_get, dict_get_default. by intros ->. Qed.

Lemma dict_get_None raw k : raw !! k = None → dict_get raw k = PNone.
Proof. unfold dict_get, dict_get_default. by intros ->. Qed.

Lemma dict_get_not_none raw k v :
  dict_get raw k = v → v ≠ PNone → raw !! k = Some v.
Proof.
  unfold dict_get, dict_get_default. destruct (raw !! k); simpl; congruence.
Qed.

Lemma data_direct (get : string → pyval) out prov :
  (out, prov) ∈ direct_fields → extract_kcal_data get !! out = Some (get prov).
Proof.
  unfold direct_fields. rewrite !elem_of_cons, elem_of_nil.
  intros H. repeat (destruct H as [H | H]; [by inversion H |]). done.
Qed.

Lemma data_kcal_100g (get : string → pyval) :
  extract_kcal_data get !! "kcal_100g"
  = Some (py_or (get "energy-kcal_100g") (get "energy-kcal_value")).
Proof. reflexivity. Qed.

Lemma truthy_not_none v : truthy v = true → v ≠ PNone.
Proof. by destruct v. Qed.

(** A direct field is a pure pass-through of its provider key. *)
Lemma direct_field_passes_through raw out prov :
  (out, prov) ∈ direct_fields → passes_through raw out prov.
Proof.
  intros Hin v.
  unfold normalize. rewrite lookup_drop_none, (data_direct _ _ _ Hin). split.
  - intros [[= Hv] Hne]. split; [| done]. by apply dict_get_not_none.
  - intros [Hv Hne]. split; [| done]. f_equal. by apply dict_get_Some.
Qed.

(** With a truthy primary key the fallback is not consulted. *)
Lemma kcal_100g_truthy_primary raw v :
  raw !! "energy-kcal_100g" = Some v → truthy v = true →
  normalize raw !! "kcal_100g" = Some v.
Proof.
  intros Hv Ht. unfold normalize. rewrite lookup_drop_none, data_kcal_100g.
  rewrite (dict_get_Some _ _ _ Hv). unfold py_or. rewrite Ht.
  split; [done | by apply truthy_not_none].
Qed.

(** With the primary key absent or null the fallback key decides. *)
Lemma kcal_100g_fallback raw :
  raw !! "energy-kcal_100g" = None ∨ raw !! "energy-kcal_100g" = Some PNone →
  passes_through raw "kcal_100g" "energy-kcal_value".
Proof.
  intros Hp v. unfold normalize. rewrite lookup_drop_none, data_kcal_100g.
  assert (dict_get raw "energy-kcal_100g" = PNone) as ->.
  { destruct Hp as [Hp | Hp];
      [by apply dict_get_None | by apply dict_get_Some]. }
  unfold py_or; simpl. split.
  - intros [[= Hv] Hne]. split; [| done]. by apply dict_get_not_none.
  - intros [Hv Hne]. split; [| done]. f_equal. by apply dict_get_Some.
Qed.

End Normalization.

(** C2 (the code departs from the claim).  A primary key that is present,
    non-null and zero does not reach the output: with a fallback value
    next to it the record carries the fallback value, and without one the
    field is dropped. *)
Theorem extract_kcal_zero_primary :
  extract_kcal (PDict {[ "energy-kcal_100g" := PInt 0;
                         "energy-kcal_value" := PInt 120 ]})
  = Ok {[ "kcal_100g" := PInt 120 ]}
  ∧ extract_kcal (PDict {[ "energy-kcal_100g" := PInt 0 ]}) = Ok ∅.
Proof. split; vm_compute; reflexivity. Qed.

(** The example of the specification: a null primary key falls back. *)
Example extract_kcal_null_primary :
  extract_kcal (PDict {[ "energy-kcal_100g" := PNone;
                         "energy-kcal_value" := PInt 120 ]})
  = Ok {[ "kcal_100g" := PInt 120 ]}.
Proof. vm_compute; reflexivity. Qed.

(** C3, as stated, fails for [kcal_100g]: the field is present without its
    provider key when the fallback key steps in, and absent with its
    provider key present and non-null when that key holds zero. *)
Lemma kcal_100g_does_not_pass_through :
  ("kcal_100g", "energy-kcal_100g") ∈ provider_keys
  ∧ ¬ passes_through {[ "energy-kcal_value" := PInt 120 ]}
        "kcal_100g" "energy-kcal_100g"
  ∧ ¬ passes_through {[ "energy-kcal_100g" := PInt 0 ]}
        "kcal_100g" "energy-kcal_100g".
Proof.
  split; [apply list_elem_of_here |]. split.
  - intros H. destruct (H (PInt 120)) as [H1 _].
    assert (normalize {[ "energy-kcal_value" := PInt 120 ]} !! "kcal_100g"
            = Some (PInt 120)) as Hn by (vm_compute; reflexivity).
    destruct (H1 Hn) as [Habs _]. vm_compute in Habs. discriminate.
  - intros H. destruct (H (PInt 0)) as [_ H2].
    assert (normalize {[ "energy-kcal_100g" := PInt 0 ]} !! "kcal_100g" = None)
      as Hn by (vm_compute; reflexivity).
    rewrite H2 in Hn; [discriminate |]. split; [vm_compute; reflexivity | done].
Qed.

(** C3 (amended).  Each of the seven directly mapped fields is present in
    the record exactly when its provider key holds a non-null value, and
    carries that value unchanged.  The field [kcal_100g], when present,
    carries unchanged the non-null raw value of [energy-kcal_100g] or of
    [energy-kcal_value]; it carries the value of [energy-kcal_100g] when
    that is truthy, and it is present whenever [energy-kcal_value] is
    non-null.  The record has no [protein_100g] when the mapping has no
    [proteins_100g]. *)
Theorem normalize_fields (raw : gmap string pyval) :
  extract_kcal (PDict raw) = Ok (normalize raw)
  ∧ (∀ out prov, (out, prov) ∈ direct_fields → passes_through raw out prov)
  ∧ (∀ v, normalize raw !! "kcal_100g" = Some v →
       v ≠ PNone
       ∧ (raw !! "energy-kcal_100g" = Some v ∨ raw !! "energy-kcal_value" = Some v))
  ∧ (∀ v, raw !! "energy-kcal_100g" = Some v → truthy v = true →
       normalize raw !! "kcal_100g" = Some v)
  ∧ (∀ v, raw !! "energy-kcal_value" = Some v → v ≠ PNone →
       is_Some (normalize raw !! "kcal_100g"))
  ∧ (raw !! "proteins_100g" = None → normalize raw !! "protein_100g" = None).
Proof.
  split; [apply extract_kcal_dict |].
  split; [intros out prov; apply direct_field_passes_through |].
  split; [| split; [apply kcal_100g_truthy_primary | split]].
  - intros v. unfold normalize. rewrite lookup_drop_none, data_kcal_100g.
    intros [[= Hv] Hne]. split; [done |]. unfold py_or in Hv.
    destruct (truthy (dict_get raw "energy-kcal_100g"));
      [left | right]; by apply dict_get_not_none.
  - intros v Hv Hne.
    destruct (truthy (dict_get raw "energy-kcal_100g")) eqn:Ht.
    + exists (dict_get raw "energy-kcal_100g"). unfold normalize.
      rewrite lookup_drop_none, data_kcal_100g. unfold py_or. rewrite Ht.
      split; [done | by apply truthy_not_none].
    + exists v. unfold normalize.
      rewrite lookup_drop_none, data_kcal_100g. unfold py_or. rewrite Ht.
      split; [| done]. f_equal. by apply dict_get_Some.
  - intros Hp.
    assert (("protein_100g", "proteins_100g") ∈ direct_fields) as Hin
      by (unfold direct_fields; rewrite !elem_of_cons; auto).
    destruct (normalize raw !! "protein_100g") as [v |] eqn:E; [| done].
    apply (direct_field_passes_through raw _ _ Hin) in E as [E _]. congruence.
Qed.

(** On an object that is not a mapping the first statement raises. *)
Example extract_kcal_of_none :
  extract_kcal PNone
  = Raise (Exn AttributeError "'NoneType' object has no attribute 'get'").
Proof. reflexivity. Qed.

(** C4.  On every mapping [extract_kcal] returns a record, it never
    raises; on the empty mapping the record is empty. *)
Theorem extract_kcal_total :
  (∀ raw : gmap string pyval,
     ∃ record, extract_kcal (PDict raw) = Ok record)
  ∧ extract_kcal (PDict ∅) = Ok ∅.
Proof.
  split.
  - intros raw. exists (normalize raw). apply extract_kcal_dict.
  - vm_compute; reflexivity.
Qed.

(** ** The fetch functions *)

Section Fetch.

Import Requests.

Implicit Types (n : network) (srv : request → result response).

(** The request [get_product_by_barcode] builds. *)
Lemma get_product_by_barcode_eq barcode fields lang country n :
  get_product_by_barcode barcode fields lang country n
  = let rq := Request (product_endpoint barcode) HEADERS
                (dict_display
                   [ ("fields",
                      if is_none fields
                      then PStr "code,product_name,nutriments,brands,quantity,serving_size,language,lang,lc"
                      else fields);
                     ("lc", lang); ("cc", country) ]) 20 in
    (http_result (server n rq), Network (server n) (sent n ++ [rq])).
Proof.
  unfold get_product_by_barcode, http_result, Requests.get, product_endpoint.
  cbv zeta. unfold mbind at 1, py_bind.
  destruct (server n _) as [r | e]; [| done].
  unfold mbind, py_bind, py_lift, result_bind.
  by destruct (raise_for_status r) as [[] | e].
Qed.

Lemma search_products_eq query page_size fields lang country n :
  search_products query page_size fields lang country n
  = let rq := Request search_endpoint HEADERS
                (dict_display
                   [ ("search_terms", PStr query);
                     ("fields",
                      if is_none fields
                      then PStr "code,product_name,brands,nutriments,quantity,serving_size,ecoscore_grade"
                      else fields);
                     ("page_size", page_size); ("lc", lang); ("cc", country) ]) 20 in
    (http_result (server n rq), Network (server n) (sent n ++ [rq])).
Proof.
  unfold search_products, http_result, Requests.get, search_endpoint.
  cbv zeta. unfold mbind at 1, py_bind.
  destruct (server n _) as [r | e]; [| done].
  unfold mbind, py_bind, py_lift, result_bind.
  by destruct (raise_for_status r) as [[] | e].
Qed.

End Fetch.

(** C8.  A call of either fetch function sends exactly one request,
    whatever the server answers, with a timeout of 20: to the product
    endpoint with the parameters [fields], [lc] and [cc], or to the search
    endpoint with [search_terms], [fields], [page_size], [lc] and [cc];
    both carry the fixed [User-Agent] header. *)
Theorem fetch_sends_one_request :
  (∀ barcode fields lang country n, ∃ rq,
     Requests.sent (get_product_by_barcode barcode fields lang country n).2
     = Requests.sent n ++ [rq]
     ∧ Requests.req_url rq = "https://world.openfoodfacts.org/api/v2/product/" +:+ barcode
     ∧ Requests.req_timeout rq = 20%Z
     ∧ Requests.req_headers rq
       = {[ "User-Agent" :=
              PStr "Darcons-Trade-CalorieFetcher/1.0 (+https://darcons-trade.example)" ]}
     ∧ Requests.req_params rq
       = {[ "fields" :=
              (if is_none fields
               then PStr "code,product_name,nutriments,brands,quantity,serving_size,language,lang,lc"
               else fields);
            "lc" := lang;
            "cc" := country ]})
  ∧ (∀ query page_size fields lang country n, ∃ rq,
     Requests.sent (search_products query page_size fields lang country n).2
     = Requests.sent n ++ [rq]
     ∧ Requests.req_url rq = "https://world.openfoodfacts.org/api/v2/search"
     ∧ Requests.req_timeout rq = 20%Z
     ∧ Requests.req_headers rq
       = {[ "User-Agent" :=
              PStr "Darcons-Trade-CalorieFetcher/1.0 (+https://darcons-trade.example)" ]}
     ∧ Requests.req_params rq
       = {[ "search_terms" := PStr query;
            "fields" :=
              (if is_none fields
               then PStr "code,product_name,brands,nutriments,quantity,serving_size,ecoscore_grade"
               else fields);
            "page_size" := page_size;
            "lc" := lang;
            "cc" := country ]}).
Proof.
  split.
  - intros barcode fields lang country n.
    rewrite get_product_by_barcode_eq. cbv zeta. eexists. split; [reflexivity |].
    repeat split.
  - intros query page_size fields lang country n.
    rewrite search_products_eq. cbv zeta. eexists. split; [reflexivity |].
    repeat split.
Qed.

(** ** The worker *)

Section Worker.

Import Requests.

Implicit Types (srv : request → result response) (ty q : string).

(** A worker sends one request and emits one signal; [run] itself never
    raises. *)
Lemma run_eq ty q (t : thread) :
  run ty q t
  = let rq := worker_request ty q in
    (Ok tt,
     Thread (Network (server (net t)) (sent (net t) ++ [rq]))
            (emitted t ++ [worker_signal ty (http_result (server (net t) rq))])).
Proof.
  unfold run, try_except, worker_request, worker_signal.
  destruct (String.eqb ty "barcode").
  - unfold mbind at 1 2, py_bind, on_net.
    rewrite get_product_by_barcode_eq. cbv zeta. simpl net. simpl is_none. cbv iota.
    destruct (http_result _) as [v | e].
    + destruct v; try reflexivity.
      unfold mbind, py_bind, py_lift, getattr_get.
      unfold dict_get. 
      destruct (truthy (dict_get_default d "product" PNone)); reflexivity.
    + simpl. unfold failure_report, NetworkError, UnexpectedError.
      by destruct (is_request_exception (exn_class e)).
  - unfold mbind at 1, py_bind, on_net.
    rewrite search_products_eq. cbv zeta. simpl net. simpl is_none. cbv iota.
    destruct (http_result _) as [v | e].
    + by destruct v.
    + simpl. unfold failure_report, NetworkError, UnexpectedError.
      by destruct (is_request_exception (exn_class e)).
Qed.

Lemma run_thread_eq srv ty q :
  run_thread srv ty q
  = Thread (Network srv [worker_request ty q])
           [worker_signal ty (http_result (srv (worker_request ty q)))].
Proof. unfold run_thread. by rewrite run_eq. Qed.

Lemma emitted_outcome srv ty q :
  emitted (run_thread srv ty q) = [outcome srv ty q].
Proof. by rewrite run_thread_eq. Qed.

Lemma worker_request_url ty q : req_url (worker_request ty q) = endpoint ty q.
Proof. unfold worker_request, endpoint. by destruct (String.eqb ty "barcode"). Qed.

(** What the worker emits when the server's answer to its endpoint is
    known. *)
Lemma emitted_answers srv ty q answer :
  answers srv (endpoint ty q) answer →
  emitted (run_thread srv ty q) = [worker_signal ty (http_result answer)].
Proof.
  intros H. rewrite run_thread_eq. simpl.
  by rewrite (H _ (worker_request_url ty q)).
Qed.

(** A 2xx status passes [raise_for_status]. *)
Lemma raise_for_status_2xx (r : response) :
  is_2xx (status_code r) → raise_for_status r = Ok tt.
Proof.
  unfold is_2xx, raise_for_status. intros H.
  destruct (400 <=? status_code r)%Z eqn:E1; [lia |].
  destruct (500 <=? status_code r)%Z eqn:E2; [lia | done].
Qed.

Lemma http_result_2xx code reason url body :
  is_2xx code → http_result (Ok (Response code reason url body)) = body.
Proof.
  intros H. unfold http_result. simpl.
  rewrite raise_for_status_2xx by done. by destruct body.
Qed.

(** A 4xx or 5xx status is turned into an [HTTPError]. *)
Lemma http_result_error_status (r : response) :
  (400 <= status_code r < 600)%Z →
  ∃ kind, http_result (Ok r)
          = Raise (Exn HTTPError
                     (pretty (status_code r) +:+ kind +:+ reason r
                      +:+ " for url: " +:+ resp_url r)).
Proof.
  intros H. unfold http_result, raise_for_status. simpl.
  destruct ((400 <=? status_code r)%Z && (status_code r <? 500)%Z) eqn:E1.
  - by exists " Client Error: ".
  - destruct ((500 <=? status_code r)%Z && (status_code r <? 600)%Z) eqn:E2.
    + by exists " Server Error: ".
    + exfalso. rewrite andb_false_iff in E1, E2. lia.
Qed.

End Worker.

(** ** Rendering an empty result *)

Section EmptyResult.

Implicit Types (a : app) (products : gmap string pyval).

Lemma display_no_products products (t : table_widget) :
  products !! "products" = Some (PList []) ∨ products !! "products" = None →
  display_products_in_table products t = (Ok tt, setRowCount 0 t).
Proof.
  intros H. unfold display_products_in_table, dict_get_default.
  by destruct H as [-> | ->].
Qed.

Lemma on_barcode_search_finished_no_products products a :
  products !! "products" = Some (PList []) ∨ products !! "products" = None →
  on_barcode_search_finished products a
  = (Ok tt,
     showMessage "Найдено продуктов: 0"
       (set_barcode_table (setRowCount 0 (barcode_table a))
          (set_barcode_progress (setVisible false)
             (set_barcode_search_btn true a)))).
Proof.
  intros H. unfold on_barcode_search_finished.
  unfold mbind, py_bind, py_modify, on_table. simpl barcode_table.
  rewrite display_no_products by done.
  unfold dict_get_default. by destruct H as [-> | ->].
Qed.

Lemma on_name_search_finished_no_products products a :
  products !! "products" = Some (PList []) ∨ products !! "products" = None →
  on_name_search_finished products a
  = (Ok tt,
     showMessage "Найдено продуктов: 0"
       (set_name_table (setRowCount 0 (name_table a))
          (set_name_progress (setVisible false)
             (set_name_search_btn true a)))).
Proof.
  intros H. unfold on_name_search_finished.
  unfold mbind, py_bind, py_modify, on_table. simpl name_table.
  rewrite display_no_products by done.
  unfold dict_get_default. by destruct H as [-> | ->].
Qed.

End EmptyResult.

(** ** Lookup outcomes *)

(** C5, as stated, fails for a product that is present but empty: the
    server answers 200 with [{"product": {}}], and the worker reports zero
    rows instead of the one empty record. *)
Lemma empty_product_is_not_wrapped : ¬ present_product_is_wrapped.
Proof.
  intros H.
  specialize (H (always (Ok (Requests.Response 200 "OK" ""
                               (Ok (PDict {[ "product" := PDict ∅ ]})))))
                "123" 200%Z "OK" "" {[ "product" := PDict ∅ ]} ∅).
  rewrite run_thread_eq in H. vm_compute in H.
  assert (200 ≤ 200 < 300)%Z as H2 by lia.
  specialize (H H2 (λ _ _, eq_refl) eq_refl). discriminate H.
Qed.

(** C5 (amended).  For a barcode lookup answered with a 2xx status and a
    mapping as body: when [product] is absent or null the worker reports
    success with zero rows, which the window renders as an empty table and
    without any dialog; when [product] is present and truthy (a non-empty
    record) it reports success with exactly that product as the one
    row. *)
Theorem barcode_lookup_rows srv query code reason url (body : gmap string pyval) :
  is_2xx code →
  answers srv (product_endpoint query)
          (Ok (Requests.Response code reason url (Ok (PDict body)))) →
  (body !! "product" = None ∨ body !! "product" = Some PNone →
   emitted (run_thread srv "barcode" query) = [finished (products_of [])]
   ∧ ∀ a, ∃ a', on_barcode_search_finished (products_of []) a = (Ok tt, a')
              ∧ rowCount (barcode_table a') = 0
              ∧ statusBar a' = "Найдено продуктов: 0"
              ∧ message_boxes a' = message_boxes a)
  ∧ (∀ product, body !! "product" = Some product → truthy product = true →
     emitted (run_thread srv "barcode" query) = [finished (products_of [product])]).
Proof.
  intros Hcode Hsrv.
  pose proof (emitted_answers srv "barcode" query _ Hsrv) as Hrun.
  rewrite http_result_2xx in Hrun by done. simpl in Hrun. split.
  - intros Habsent. split.
    + rewrite Hrun. unfold dict_get, dict_get_default.
      by destruct Habsent as [-> | ->].
    + intros a. eexists. split.
      * apply on_barcode_search_finished_no_products. by left.
      * done.
  - intros product Hp Ht. rewrite Hrun.
    unfold dict_get, dict_get_default. rewrite Hp. simpl. by rewrite Ht.
Qed.

(** The theorem at work: a 200 answer with [{"product": null}]. *)
Lemma barcode_lookup_rows_witness :
  emitted (run_thread
             (always (Ok (Requests.Response 200 "OK" ""
                            (Ok (PDict {[ "product" := PNone ]})))))
             "barcode" "123")
  = [finished (products_of [])].
Proof.
  refine (proj1 (proj1 (barcode_lookup_rows _ "123" 200 "OK" ""
                          {[ "product" := PNone ]} _ _) _)).
  - unfold is_2xx. lia.
  - intros rq _. reflexivity.
  - right. reflexivity.
Defined.

(** C10.  A [product] that is present and non-null but falsy, such as the
    empty mapping, is reported like a missing one: success with zero
    rows. *)
Theorem falsy_product_is_not_found srv query code reason url
    (body : gmap string pyval) (product : pyval) :
  is_2xx code →
  answers srv (product_endpoint query)
          (Ok (Requests.Response code reason url (Ok (PDict body)))) →
  body !! "product" = Some product →
  product ≠ PNone →
  truthy product = false →
  emitted (run_thread srv "barcode" query) = [finished (products_of [])].
Proof.
  intros Hcode Hsrv Hp _ Hf.
  rewrite (emitted_answers srv "barcode" query _ Hsrv).
  rewrite http_result_2xx by done. simpl.
  unfold dict_get, dict_get_default. rewrite Hp. simpl. by rewrite Hf.
Qed.

(** The theorem at work: a 200 answer with [{"product": {}}]. *)
Lemma falsy_product_is_not_found_witness :
  emitted (run_thread
             (always (Ok (Requests.Response 200 "OK" ""
                            (Ok (PDict {[ "product" := PDict ∅ ]})))))
             "barcode" "123")
  = [finished (products_of [])].
Proof.
  refine (falsy_product_is_not_found _ "123" 200 "OK" ""
            {[ "product" := PDict ∅ ]} (PDict ∅) _ _ _ _ _).
  - unfold is_2xx. lia.
  - intros rq _. reflexivity.
  - reflexivity.
  - discriminate.
  - reflexivity.
Defined.

(** C6.  A name search answered with a 2xx status and a mapping whose
    [products] is the empty list is a success: the worker emits [finished]
    with that mapping, and the window renders zero rows, without any
    dialog. *)
Theorem name_search_no_match srv query code reason url (body : gmap string pyval) :
  is_2xx code →
  answers srv search_endpoint
          (Ok (Requests.Response code reason url (Ok (PDict body)))) →
  body !! "products" = Some (PList []) →
  emitted (run_thread srv "name" query) = [finished body]
  ∧ ∀ a, ∃ a', on_name_search_finished body a = (Ok tt, a')
             ∧ rowCount (name_table a') = 0
             ∧ statusBar a' = "Найдено продуктов: 0"
             ∧ message_boxes a' = message_boxes a.
Proof.
  intros Hcode Hsrv Hp. split.
  - rewrite (emitted_answers srv "name" query _ Hsrv).
    by rewrite http_result_2xx.
  - intros a. eexists. split.
    + apply on_name_search_finished_no_products. by left.
    + done.
Qed.

(** The theorem at work: a 200 answer with [{"products": []}]. *)
Lemma name_search_no_match_witness :
  emitted (run_thread
             (always (Ok (Requests.Response 200 "OK" ""
                            (Ok (PDict {[ "products" := PList [] ]})))))
             "name" "milk")
  = [finished {[ "products" := PList [] ]}].
Proof.
  refine (proj1 (name_search_no_match _ "milk" 200 "OK" ""
                   {[ "products" := PList [] ]} _ _ _)).
  - unfold is_2xx. lia.
  - intros rq _. reflexivity.
  - reflexivity.
Defined.

(** ** Failure classification *)

(** C7, as stated, fails for a status outside both 2xx and 4xx/5xx: the
    server answers a name search with 300 and a decodable body, and the
    worker reports success. *)
Lemma status_300_is_not_an_error : ¬ non_2xx_is_network_error.
Proof.
  intros H.
  destruct (H (always (Ok (Requests.Response 300 "Multiple Choices" ""
                             (Ok (PDict {[ "products" := PList [] ]})))))
              "name" "milk" 300%Z "Multiple Choices" ""
              (Ok (PDict {[ "products" := PList [] ]}))) as [msg Hmsg].
  - unfold is_2xx. lia.
  - intros rq _. reflexivity.
  - rewrite run_thread_eq in Hmsg. discriminate Hmsg.
Qed.

(** C7 (amended).  A worker emits exactly one signal.  Whenever its fetch
    raises, that signal is [error]: with the network prefix and the
    exception's message for every exception of the [requests] family
    (which covers a transport failure and a 4xx or 5xx status), and with
    the prefix for other errors and, again, the exception's own message
    for every other exception.  A failure to decode the body falls on
    either side, by the class of the decoder's exception. *)
Theorem failures_reach_the_error_signal srv search_type query :
  (∃ sig, run search_type query (Thread (Requests.Network srv []) [])
          = (Ok tt, run_thread srv search_type query)
          ∧ emitted (run_thread srv search_type query) = [sig])
  ∧ (∀ e, (get_product_by_barcode query PNone default_lang default_country
             (Requests.Network srv [])).1 = Raise e →
          search_type = "barcode" →
          emitted (run_thread srv search_type query) = [failure_report e])
  ∧ (∀ e, (search_products query (PInt 10) PNone default_lang default_country
             (Requests.Network srv [])).1 = Raise e →
          search_type ≠ "barcode" →
          emitted (run_thread srv search_type query) = [failure_report e])
  ∧ (∀ e, answers srv (endpoint search_type query) (Raise e) →
          emitted (run_thread srv search_type query) = [failure_report e])
  ∧ (∀ r, answers srv (endpoint search_type query) (Ok r) →
          (400 <= Requests.status_code r < 600)%Z →
          ∃ msg, emitted (run_thread srv search_type query) = [NetworkError msg])
  ∧ (∀ r e, answers srv (endpoint search_type query) (Ok r) →
            ¬ (400 <= Requests.status_code r < 600)%Z →
            Requests.resp_json r = Raise e →
            emitted (run_thread srv search_type query) = [failure_report e])
  ∧ (∀ e, failure_report e
          = if is_request_exception (exn_class e)
            then error ("Ошибка сети: " +:+ exn_str e)
            else error ("Ошибка: " +:+ exn_str e)).
Proof.
  repeat apply conj.
  - exists (worker_signal search_type
              (http_result (srv (worker_request search_type query)))).
    split; [| by rewrite run_thread_eq].
    unfold run_thread. by rewrite run_eq.
  - intros e He ->. rewrite get_product_by_barcode_eq in He.
    unfold default_lang, default_country in He. simpl in He.
    rewrite run_thread_eq. simpl emitted. unfold worker_request.
    simpl String.eqb. cbv iota. by rewrite He.
  - intros e He Hty. rewrite search_products_eq in He.
    unfold default_lang, default_country in He. simpl in He.
    rewrite run_thread_eq. simpl emitted. unfold worker_request.
    destruct (String.eqb search_type "barcode") eqn:E;
      [by apply String.eqb_eq in E |].
    by rewrite He.
  - intros e He. by rewrite (emitted_answers _ _ _ _ He).
  - intros r Hr Hcode. rewrite (emitted_answers _ _ _ _ Hr).
    destruct (http_result_error_status r Hcode) as [kind ->].
    eexists. reflexivity.
  - intros r e Hr Hcode Hjson. rewrite (emitted_answers _ _ _ _ Hr).
    unfold http_result. simpl.
    assert (Requests.raise_for_status r = Ok tt) as ->.
    { unfold Requests.raise_for_status.
      destruct ((400 <=? Requests.status_code r)%Z
                && (Requests.status_code r <? 500)%Z) eqn:E1;
        [exfalso; rewrite andb_true_iff in E1; lia |].
      destruct ((500 <=? Requests.status_code r)%Z
                && (Requests.status_code r <? 600)%Z) eqn:E2;
        [exfalso; rewrite andb_true_iff in E2; lia | done]. }
    simpl. unfold Requests.json. by rewrite Hjson.
  - done.
Qed.

(** ** The callbacks *)

Section Callbacks.

Implicit Types (a : app) (p : process) (slot : search_slot) (sig : signal).

Lemma unchanged_on_table {A X} (f : app → X) (table : app → table_widget)
    (set_table : table_widget → app → app) (c : py table_widget A) :
  (∀ t a, f (set_table t a) = f a) → unchanged f (on_table table set_table c).
Proof.
  intros H a. unfold on_table. destruct (c (table a)) as [r t]. apply H.
Qed.

#[local] Hint Extern 1 (unchanged _ (py_modify _)) =>
  (apply unchanged_modify; intros; reflexivity) : unchanged.
#[local] Hint Extern 1 (unchanged _ (on_table _ _ _)) =>
  (apply unchanged_on_table; intros; reflexivity) : unchanged.

(** No callback touches the worker objects. *)
Lemma callback_threads slot sig : unchanged threads (callback slot sig).
Proof.
  destruct sig, slot; simpl;
    unfold on_barcode_search_finished, on_name_search_finished, on_search_error;
    auto 20 with unchanged.
Qed.

Lemma bind_modify {S B} (g : S → S) (k : unit → py S B) (s : S) :
  (py_modify g ≫= k) s = k tt (g s).
Proof. reflexivity. Qed.

(** A callback resets the indicator of its slot before anything that can
    raise, and nothing after that touches it. *)
Lemma on_barcode_search_finished_cleared products a :
  indicator_cleared barcode_slot (on_barcode_search_finished products a).2.
Proof.
  unfold on_barcode_search_finished. rewrite !bind_modify.
  match goal with |- indicator_cleared _ (?rest ?s).2 =>
    assert (unchanged barcode_search_btn rest) as H1 by auto 20 with unchanged;
    assert (unchanged (λ a, isVisible (barcode_progress a)) rest) as H2
      by auto 20 with unchanged;
    split; [rewrite (H1 s) | rewrite (H2 s)]; reflexivity
  end.
Qed.

Lemma on_name_search_finished_cleared products a :
  indicator_cleared name_slot (on_name_search_finished products a).2.
Proof.
  unfold on_name_search_finished. rewrite !bind_modify.
  match goal with |- indicator_cleared _ (?rest ?s).2 =>
    assert (unchanged name_search_btn rest) as H1 by auto 20 with unchanged;
    assert (unchanged (λ a, isVisible (name_progress a)) rest) as H2
      by auto 20 with unchanged;
    split; [rewrite (H1 s) | rewrite (H2 s)]; reflexivity
  end.
Qed.

Lemma on_search_error_eq message a :
  on_search_error message a
  = (Ok tt,
     showMessage "Ошибка при поиске"
       (show_message_box (MessageBox Critical "Ошибка" message)
          (set_name_progress (setVisible false)
             (set_barcode_progress (setVisible false)
                (set_name_search_btn true (set_barcode_search_btn true a)))))).
Proof. reflexivity. Qed.

Lemma on_search_error_cleared message a slot :
  indicator_cleared slot (on_search_error message a).2.
Proof. rewrite on_search_error_eq. by destruct slot. Qed.

Lemma callback_cleared slot sig a : indicator_cleared slot (callback slot sig a).2.
Proof.
  destruct sig as [products | message]; simpl.
  - destruct slot;
      [apply on_barcode_search_finished_cleared
      | apply on_name_search_finished_cleared].
  - destruct slot; apply on_search_error_cleared.
Qed.

End Callbacks.

(** ** The event loop *)

Section EventLoop.

Implicit Types (a : app) (p : process) (slot : search_slot) (sig : signal)
  (wk : worker) (w : nat).

Lemma in_window_window body p : window (in_window body p) = (body (window p)).2.
Proof. unfold in_window. by destruct (body (window p)). Qed.

Lemma in_window_delivered body p : delivered (in_window body p) = delivered p.
Proof. unfold in_window. by destruct (body (window p)). Qed.

Lemma slot_of_started slot q : slot_of (started_worker slot q) = slot.
Proof. by destruct slot. Qed.

Lemma created_started slot q : created_by_search (started_worker slot q).
Proof. destruct slot; (split; [| done]); [left | right]; done. Qed.

Lemma created_set_state st wk :
  created_by_search wk → created_by_search (set_state st wk).
Proof. by destruct wk. Qed.

(** A search with a non-empty text adds one running worker and calls no
    slot. *)
Lemma search_threads slot q a :
  q ≠ "" →
  threads (match slot with
           | barcode_slot => search_by_barcode q a
           | name_slot => search_by_name q a
           end).2
  = threads a ++ [started_worker slot q].
Proof.
  intros Hq. apply String.eqb_neq in Hq.
  destruct slot; unfold search_by_barcode, search_by_name; rewrite Hq;
    rewrite !bind_modify; unfold SearchWorker;
    unfold mbind at 1, py_bind at 1; rewrite !bind_modify;
    unfold finished_connect, error_connect, start; rewrite !bind_modify;
    unfold py_modify; simpl;
    (rewrite !alter_app_r_alt by (rewrite ?length_app; simpl; lia));
    rewrite Nat.sub_diag; reflexivity.
Qed.

Lemma step_trigger slot q p :
  q ≠ "" →
  threads (window (step p (trigger slot q)))
  = threads (window p) ++ [started_worker slot q]
  ∧ delivered (step p (trigger slot q)) = delivered p.
Proof.
  intros Hq. destruct slot; simpl; rewrite in_window_window, in_window_delivered.
  - by rewrite (search_threads barcode_slot q _ Hq).
  - by rewrite (search_threads name_slot q _ Hq).
Qed.

Lemma step_trigger_empty slot p :
  threads (window (step p (trigger slot ""))) = threads (window p).
Proof. by destruct slot. Qed.

(** The completion of a running worker: one slot call, with the worker's
    own signal. *)
Lemma complete_running p w wk srv :
  threads (window p) !! w = Some wk →
  state wk = Running →
  created_by_search wk →
  complete w srv p
  = in_window (callback (slot_of wk) (outcome srv (search_type wk) (query wk)))
      (log_delivery
         (Delivery w (target (slot_of wk) (outcome srv (search_type wk) (query wk)))
                   (outcome srv (search_type wk) (query wk)))
         (Process (set_threads (alter (set_state Finished) w) (window p))
                  (delivered p)
                  (requests_sent p ++ [(w, worker_request (search_type wk) (query wk))])
                  (uncaught p))).
Proof.
  intros Hw Hs [Hf He]. unfold complete. rewrite Hw, Hs, run_thread_eq.
  simpl. fold (outcome srv (search_type wk) (query wk)).
  unfold dispatch, slot_of.
  destruct (outcome srv (search_type wk) (query wk)) as [products | message].
  - destruct Hf as [[-> ->] | [-> ->]]; reflexivity.
  - rewrite He. by destruct (String.eqb (search_type wk) "barcode").
Qed.

Lemma complete_idle p w srv :
  (∀ wk, threads (window p) !! w = Some wk → state wk ≠ Running) →
  complete w srv p = p.
Proof.
  intros H. unfold complete.
  destruct (threads (window p) !! w) as [wk |] eqn:E; [| done].
  specialize (H wk eq_refl). by destruct (state wk).
Qed.

Lemma complete_running_threads p w wk srv :
  threads (window p) !! w = Some wk →
  state wk = Running →
  created_by_search wk →
  threads (window (complete w srv p))
  = alter (set_state Finished) w (threads (window p)).
Proof.
  intros Hw Hs Hc. rewrite (complete_running p w wk srv Hw Hs Hc).
  rewrite in_window_window. simpl. by rewrite callback_threads.
Qed.

Lemma complete_running_delivered p w wk srv :
  threads (window p) !! w = Some wk →
  state wk = Running →
  created_by_search wk →
  delivered (complete w srv p)
  = delivered p
    ++ [Delivery w (target (slot_of wk) (outcome srv (search_type wk) (query wk)))
                 (outcome srv (search_type wk) (query wk))].
Proof.
  intros Hw Hs Hc. rewrite (complete_running p w wk srv Hw Hs Hc).
  by rewrite in_window_delivered.
Qed.

(** Every worker of a process that started from [boot] was made by a
    search. *)
Lemma step_well_connected p ev : well_connected p → well_connected (step p ev).
Proof.
  unfold well_connected. intros Hp. destruct ev as [q | q | w srv].
  - change (trigger_search_by_barcode q) with (trigger barcode_slot q).
    destruct (decide (q = "")) as [-> | Hq].
    + by rewrite (step_trigger_empty barcode_slot).
    + destruct (step_trigger barcode_slot q p Hq) as [-> _].
      apply Forall_app. split; [done |]. apply Forall_singleton, created_started.
  - change (trigger_search_by_name q) with (trigger name_slot q).
    destruct (decide (q = "")) as [-> | Hq].
    + by rewrite (step_trigger_empty name_slot).
    + destruct (step_trigger name_slot q p Hq) as [-> _].
      apply Forall_app. split; [done |]. apply Forall_singleton, created_started.
  - simpl. destruct (threads (window p) !! w) as [wk |] eqn:Hw.
    + assert (created_by_search wk) as Hc.
      { rewrite Forall_lookup in Hp. by apply (Hp w). }
      destruct (state wk) eqn:Hs.
      * rewrite complete_idle; [done |]. intros wk' ?. congruence.
      * rewrite (complete_running_threads p w wk srv Hw Hs Hc).
        apply Forall_alter; [done |]. intros x _. apply created_set_state.
      * rewrite complete_idle; [done |]. intros wk' ?. congruence.
    + rewrite complete_idle; [done |]. intros wk'. congruence.
Qed.

(** A worker object is changed by its own completion only. *)
Lemma step_lookup_other p ev w wk :
  well_connected p →
  threads (window p) !! w = Some wk →
  (∀ srv, ev ≠ worker_completes w srv) →
  threads (window (step p ev)) !! w = Some wk.
Proof.
  intros Hp Hw Hev.
  assert (∀ slot q, threads (window (step p (trigger slot q))) !! w = Some wk)
    as Htrigger.
  { intros slot q. destruct (decide (q = "")) as [-> | Hq].
    - by rewrite step_trigger_empty.
    - destruct (step_trigger slot q p Hq) as [-> _].
      rewrite lookup_app_l; [done |]. by apply lookup_lt_Some in Hw. }
  destruct ev as [q | q | w' srv].
  - apply (Htrigger barcode_slot).
  - apply (Htrigger name_slot).
  - simpl. destruct (decide (w' = w)) as [-> | Hne]; [by destruct (Hev srv) |].
    destruct (threads (window p) !! w') as [wk' |] eqn:Hw'.
    + assert (created_by_search wk') as Hc.
      { unfold well_connected in Hp. rewrite Forall_lookup in Hp.
        by apply (Hp w'). }
      destruct (state wk') eqn:Hs.
      * rewrite complete_idle; [done |]. intros ? ?. congruence.
      * rewrite (complete_running_threads p w' wk' srv Hw' Hs Hc).
        by rewrite list_lookup_alter_ne.
      * rewrite complete_idle; [done |]. intros ? ?. congruence.
    + rewrite complete_idle; [done |]. intros ?. congruence.
Qed.

(** A started worker stays as it is, running, through every sequence of
    events that does not complete it. *)
Lemma exec_lookup_other evs p w wk :
  well_connected p →
  threads (window p) !! w = Some wk →
  (∀ srv, worker_completes w srv ∉ evs) →
  threads (window (exec evs p)) !! w = Some wk.
Proof.
  revert p. induction evs as [| ev evs IH]; intros p Hp Hw Hevs; [done |].
  simpl. apply IH.
  - by apply step_well_connected.
  - apply step_lookup_other; [done | done |].
    intros srv ->. apply (Hevs srv), list_elem_of_here.
  - intros srv Hin. apply (Hevs srv). by apply list_elem_of_further.
Qed.

Lemma exec_app evs1 evs2 p : exec (evs1 ++ evs2) p = exec evs2 (exec evs1 p).
Proof. apply foldl_app. Qed.

Lemma exec_cons ev evs p : exec (ev :: evs) p = exec evs (step p ev).
Proof. reflexivity. Qed.

Lemma exec_snoc evs ev p : exec (evs ++ [ev]) p = step (exec evs p) ev.
Proof. apply foldl_snoc. Qed.

Lemma exec_well_connected evs p : well_connected p → well_connected (exec evs p).
Proof.
  revert p. induction evs as [| ev evs IH]; intros p Hp; [done |].
  simpl. apply IH. by apply step_well_connected.
Qed.

Lemma boot_well_connected : well_connected boot.
Proof. apply Forall_nil_2. Qed.

End EventLoop.

(** The completion of a running worker of a process that started from
    the freshly built window. *)
Lemma completion_of_running_worker evs w wk srv :
  threads (window (exec evs boot)) !! w = Some wk →
  state wk = Running →
  delivered (step (exec evs boot) (worker_completes w srv))
  = delivered (exec evs boot)
    ++ [Delivery w (target (slot_of wk) (outcome srv (search_type wk) (query wk)))
                 (outcome srv (search_type wk) (query wk))]
  ∧ indicator_cleared (slot_of wk)
      (window (step (exec evs boot) (worker_completes w srv))).
Proof.
  intros Hw Hs.
  assert (created_by_search wk) as Hc.
  { pose proof (exec_well_connected evs boot boot_well_connected) as Hall.
    unfold well_connected in Hall. rewrite Forall_lookup in Hall.
    by apply (Hall w). }
  split; [by apply complete_running_delivered |].
  simpl. rewrite (complete_running _ w wk srv Hw Hs Hc), in_window_window.
  apply callback_cleared.
Qed.

(** C9.  Whatever happened before ([before]) and whatever happens in
    between ([between]), when the worker of a search started on [slot]
    completes, on the success path as on the failure path, its one signal
    is delivered to one slot, and the indicator of [slot] is cleared
    afterwards: progress bar hidden, search button enabled.  When the
    request times out, the signal is the network error with the
    transport's message. *)
Theorem completion_clears_the_indicator before slot q between srv :
  q ≠ "" →
  (∀ srv', worker_completes (length (threads (window (exec before boot)))) srv'
           ∉ between) →
  emitted (run_thread srv (slot_type slot) q) = [outcome srv (slot_type slot) q]
  ∧ delivered (exec (before ++ trigger slot q :: between
                     ++ [worker_completes
                           (length (threads (window (exec before boot)))) srv])
                    boot)
    = delivered (exec (before ++ trigger slot q :: between) boot)
      ++ [Delivery (length (threads (window (exec before boot))))
                   (target slot (outcome srv (slot_type slot) q))
                   (outcome srv (slot_type slot) q)]
  ∧ indicator_cleared slot
      (window (exec (before ++ trigger slot q :: between
                     ++ [worker_completes
                           (length (threads (window (exec before boot)))) srv])
                    boot))
  ∧ (∀ msg, answers srv (endpoint (slot_type slot) q) (Raise (Exn Timeout msg)) →
            outcome srv (slot_type slot) q = NetworkError msg).
Proof.
  intros Hq Hbetween.
  set (w := length (threads (window (exec before boot)))) in *.
  assert (threads (window (exec (before ++ trigger slot q :: between) boot)) !! w
          = Some (started_worker slot q)) as Hw.
  { rewrite exec_app, exec_cons.
    apply exec_lookup_other; [| | done].
    - apply step_well_connected, exec_well_connected, boot_well_connected.
    - destruct (step_trigger slot q (exec before boot) Hq) as [-> _].
      by apply list_lookup_middle. }
  destruct (completion_of_running_worker _ w _ srv Hw eq_refl) as [Hd Hc].
  rewrite slot_of_started in Hd, Hc. simpl in Hd.
  replace (before ++ trigger slot q :: between ++ [worker_completes w srv])
    with ((before ++ trigger slot q :: between) ++ [worker_completes w srv])
    by (by rewrite <- app_assoc).
  rewrite exec_snoc.
  split; [apply emitted_outcome |]. split; [exact Hd |]. split; [exact Hc |].
  intros msg Hsrv. unfold outcome.
  by rewrite (Hsrv _ (worker_request_url _ _)).
Qed.

(** The theorem at work: one barcode search whose request times out. *)
Lemma completion_clears_the_indicator_witness :
  outcome (always (Raise (Exn Timeout "timed out"))) "barcode" "123"
  = NetworkError "timed out"
  ∧ indicator_cleared barcode_slot
      (window (exec [ trigger_search_by_barcode "123";
                      worker_completes 0 (always (Raise (Exn Timeout "timed out"))) ]
                    boot)).
Proof.
  pose proof (completion_clears_the_indicator
                [] barcode_slot "123" []
                (always (Raise (Exn Timeout "timed out")))) as H.
  destruct H as (_ & _ & Hclear & Htimeout).
  - discriminate.
  - intros srv' Hin. by apply elem_of_nil in Hin.
  - split.
    + apply Htimeout. intros rq _. reflexivity.
    + exact Hclear.
Defined.


(** * Further properties *)

(** ** The shape of a normalized record *)

Section RecordShape.

Implicit Types (raw record : gmap string pyval) (v : pyval) (k : string).

Lemma data_keys (get : string → pyval) k v :
  extract_kcal_data get !! k = Some v → k ∈ target_fields.
Proof.
  unfold extract_kcal_data, dict_display, target_fields. simpl.
  repeat (rewrite lookup_insert; case_decide;
          [subst k; intros _; rewrite !elem_of_cons; tauto |]).
  by rewrite lookup_empty.
Qed.

End RecordShape.

Lemma Ok_inj {A} (a b : A) : Ok a = Ok b → a = b.
Proof. by intros [= ->]. Qed.

(** X1.  A record returned by [extract_kcal] has no key besides the
    eight target fields, and none of its values is [None]. *)
Theorem extract_kcal_record_shape (raw record : gmap string pyval) k v :
  extract_kcal (PDict raw) = Ok record →
  record !! k = Some v →
  k ∈ target_fields ∧ v ≠ PNone.
Proof.
  rewrite extract_kcal_dict. intros H. apply Ok_inj in H. subst record.
  unfold normalize. rewrite lookup_drop_none. intros [Hk Hv]. split; [| done].
  by apply data_keys in Hk.
Qed.

(** The theorem at work on a mapping with a null and a foreign key. *)
Lemma extract_kcal_record_shape_witness :
  "fat_100g" ∈ target_fields ∧ PInt 3 ≠ PNone.
Proof.
  refine (extract_kcal_record_shape
            {[ "fat_100g" := PInt 3; "proteins_100g" := PNone; "salt_100g" := PInt 1 ]}
            {[ "fat_100g" := PInt 3 ]} "fat_100g" (PInt 3) _ _).
  - vm_compute. reflexivity.
  - reflexivity.
Defined.

(** X2.  [extract_kcal] reads nine keys of its argument and nothing
    else: two mappings that agree on them give the same record. *)
Theorem extract_kcal_reads_nine_keys (raw1 raw2 : gmap string pyval) :
  (∀ k, k ∈ provider_fields → raw1 !! k = raw2 !! k) →
  extract_kcal (PDict raw1) = extract_kcal (PDict raw2).
Proof.
  intros H. rewrite !extract_kcal_dict. f_equal.
  unfold normalize, extract_kcal_data, dict_get, dict_get_default.
  rewrite !H; [done | unfold provider_fields; rewrite !elem_of_cons; tauto ..].
Qed.

(** The theorem at work: a key the function does not read is dropped. *)
Lemma extract_kcal_reads_nine_keys_witness :
  extract_kcal (PDict {[ "fat_100g" := PInt 3; "salt_100g" := PInt 1 ]})
  = extract_kcal (PDict {[ "fat_100g" := PInt 3 ]}).
Proof.
  refine (extract_kcal_reads_nine_keys _ _ _).
  intros k Hk. unfold provider_fields in Hk. rewrite !elem_of_cons in Hk.
  rewrite elem_of_nil in Hk.
  repeat (destruct Hk as [-> | Hk]; [vm_compute; reflexivity |]). done.
Defined.

(** ** More on the worker *)

(** X3.  Whatever the server does, a worker issues exactly one request,
    with a timeout of 20: a barcode worker to the product endpoint of its
    query, any other worker to the search endpoint with its query as
    [search_terms] and a page size of 10; both ask in Russian
    ([lc = cc = "ru"]). *)
Theorem worker_sends_one_request srv search_type query :
  ∃ rq, Requests.sent (net (run_thread srv search_type query)) = [rq]
        ∧ Requests.req_url rq = endpoint search_type query
        ∧ Requests.req_timeout rq = 20%Z
        ∧ Requests.req_headers rq = HEADERS
        ∧ Requests.req_params rq !! "lc" = Some (PStr "ru")
        ∧ Requests.req_params rq !! "cc" = Some (PStr "ru")
        ∧ (search_type ≠ "barcode" →
           Requests.req_params rq !! "search_terms" = Some (PStr query)
           ∧ Requests.req_params rq !! "page_size" = Some (PInt 10)).
Proof.
  exists (worker_request search_type query). rewrite run_thread_eq.
  split; [done |]. split; [apply worker_request_url |].
  unfold worker_request.
  destruct (String.eqb search_type "barcode") eqn:E.
  - apply String.eqb_eq in E. by repeat split.
  - by repeat split.
Qed.

(** X4.  Whatever a barcode worker reports as a success has the one key
    [products], holding a list of at most one row, and a row in it is
    never empty or null. *)
Theorem barcode_payload_shape srv query (products : gmap string pyval) :
  emitted (run_thread srv "barcode" query) = [finished products] →
  ∃ rows, products = products_of rows
          ∧ length rows ≤ 1
          ∧ Forall (λ row, truthy row = true) rows.
Proof.
  rewrite run_thread_eq. simpl.
  destruct (http_result _) as [v | e]; simpl.
  - destruct v; try discriminate.
    destruct (truthy (dict_get d "product")) eqn:Ht; intros [= <-].
    + exists [dict_get d "product"]. split; [done |]. split; [simpl; lia |].
      by apply Forall_singleton.
    + exists []. split; [done |]. split; [simpl; lia | apply Forall_nil_2].
  - unfold failure_report. by destruct (is_request_exception (exn_class e)).
Qed.

(** The theorem at work: the provider knows the product. *)
Lemma barcode_payload_shape_witness :
  ∃ rows, products_of [PDict {[ "code" := PStr "123" ]}] = products_of rows
          ∧ length rows ≤ 1
          ∧ Forall (λ row, truthy row = true) rows.
Proof.
  refine (barcode_payload_shape two_products "123" _ _).
  vm_compute. reflexivity.
Defined.

(** X5.  A body that decodes to anything but a mapping (a list, a string,
    a number, null) is reported as an error of the second kind, for a
    barcode lookup as for a name search. *)
Theorem non_mapping_body_is_an_error srv search_type query code reason url v :
  ¬ is_error_status code →
  answers srv (endpoint search_type query)
          (Ok (Requests.Response code reason url (Ok v))) →
  (∀ d, v ≠ PDict d) →
  ∃ msg, emitted (run_thread srv search_type query) = [UnexpectedError msg].
Proof.
  intros Hcode Hsrv Hv. rewrite (emitted_answers _ _ _ _ Hsrv).
  assert (http_result (Ok (Requests.Response code reason url (Ok v))) = Ok v) as ->.
  { unfold http_result, Requests.raise_for_status, is_error_status in *. simpl.
    destruct ((400 <=? code)%Z && (code <? 500)%Z) eqn:E1;
      [exfalso; rewrite andb_true_iff in E1; lia |].
    destruct ((500 <=? code)%Z && (code <? 600)%Z) eqn:E2;
      [exfalso; rewrite andb_true_iff in E2; lia | done]. }
  unfold worker_signal.
  destruct v; try (destruct (String.eqb search_type "barcode"); eexists; reflexivity).
  by destruct (Hv d).
Qed.

(** The theorem at work: the provider answers a name search with a JSON
    list. *)
Lemma non_mapping_body_is_an_error_witness :
  ∃ msg, emitted (run_thread
                    (always (Ok (Requests.Response 200 "OK" "" (Ok (PList [])))))
                    "name" "milk")
         = [UnexpectedError msg].
Proof.
  refine (non_mapping_body_is_an_error _ "name" "milk" 200 "OK" "" (PList []) _ _ _).
  - unfold is_error_status. lia.
  - intros rq _. reflexivity.
  - discriminate.
Defined.

(** X6.  A name search answered with a mapping that has no [products]
    key at all (an error document, say) still counts as a success: the
    mapping is handed on as it is and the window shows zero rows. *)
Theorem name_search_without_products_key srv query code reason url
    (body : gmap string pyval) :
  is_2xx code →
  answers srv search_endpoint
          (Ok (Requests.Response code reason url (Ok (PDict body)))) →
  body !! "products" = None →
  emitted (run_thread srv "name" query) = [finished body]
  ∧ ∀ a, ∃ a', on_name_search_finished body a = (Ok tt, a')
             ∧ rowCount (name_table a') = 0
             ∧ statusBar a' = "Найдено продуктов: 0"
             ∧ message_boxes a' = message_boxes a.
Proof.
  intros Hcode Hsrv Hp. split.
  - rewrite (emitted_answers srv "name" query _ Hsrv).
    by rewrite http_result_2xx.
  - intros a. eexists. split.
    + apply on_name_search_finished_no_products. by right.
    + done.
Qed.

(** The theorem at work: the provider answers with [{"status": 0}]. *)
Lemma name_search_without_products_key_witness :
  emitted (run_thread
             (always (Ok (Requests.Response 200 "OK" ""
                            (Ok (PDict {[ "status" := PInt 0 ]})))))
             "name" "milk")
  = [finished {[ "status" := PInt 0 ]}].
Proof.
  refine (proj1 (name_search_without_products_key _ "milk" 200 "OK" ""
                   {[ "status" := PInt 0 ]} _ _ _)).
  - unfold is_2xx. lia.
  - intros rq _. reflexivity.
  - reflexivity.
Defined.

(** ** More on the callbacks *)

Section MoreCallbacks.

#[local] Hint Extern 1 (unchanged _ (py_modify _)) =>
  (apply unchanged_modify; intros; reflexivity) : unchanged.
#[local] Hint Extern 1 (unchanged _ (on_table _ _ _)) =>
  (apply unchanged_on_table; intros; reflexivity) : unchanged.

(** What a callback for the barcode tab leaves alone, whether its
    rendering raises or not. *)
Lemma on_barcode_search_finished_frame {X} (f : app → X) products :
  (∀ b a, f (set_barcode_search_btn b a) = f a) →
  (∀ g a, f (set_barcode_progress g a) = f a) →
  (∀ t a, f (set_barcode_table t a) = f a) →
  (∀ m a, f (showMessage m a) = f a) →
  unchanged f (on_barcode_search_finished products).
Proof.
  intros H1 H2 H3 H4. unfold on_barcode_search_finished.
  repeat (apply unchanged_bind; [| intros ?]);
    try (apply unchanged_modify; intros; auto);
    try apply unchanged_lift.
  apply unchanged_on_table. auto.
Qed.

Lemma on_name_search_finished_frame {X} (f : app → X) products :
  (∀ b a, f (set_name_search_btn b a) = f a) →
  (∀ g a, f (set_name_progress g a) = f a) →
  (∀ t a, f (set_name_table t a) = f a) →
  (∀ m a, f (showMessage m a) = f a) →
  unchanged f (on_name_search_finished products).
Proof.
  intros H1 H2 H3 H4. unfold on_name_search_finished.
  repeat (apply unchanged_bind; [| intros ?]);
    try (apply unchanged_modify; intros; auto);
    try apply unchanged_lift.
  apply unchanged_on_table. auto.
Qed.

End MoreCallbacks.

(** X7.  A result for one tab never reaches the other: whatever the
    payload, and whether rendering it raises or not, the callback of the
    barcode tab leaves the button, the progress bar and the table of the
    name tab as they were, shows no dialog and touches no worker; and the
    other way round. *)
Theorem finished_callbacks_keep_to_their_tab (products : gmap string pyval) (a : app) :
  (name_search_btn (on_barcode_search_finished products a).2 = name_search_btn a
   ∧ name_progress (on_barcode_search_finished products a).2 = name_progress a
   ∧ name_table (on_barcode_search_finished products a).2 = name_table a
   ∧ message_boxes (on_barcode_search_finished products a).2 = message_boxes a
   ∧ threads (on_barcode_search_finished products a).2 = threads a)
  ∧ (barcode_search_btn (on_name_search_finished products a).2 = barcode_search_btn a
     ∧ barcode_progress (on_name_search_finished products a).2 = barcode_progress a
     ∧ barcode_table (on_name_search_finished products a).2 = barcode_table a
     ∧ message_boxes (on_name_search_finished products a).2 = message_boxes a
     ∧ threads (on_name_search_finished products a).2 = threads a).
Proof.
  split.
  - repeat split; by apply on_barcode_search_finished_frame.
  - repeat split; by apply on_name_search_finished_frame.
Qed.

(** ** What holds at every moment *)

Section Consistency.

Implicit Types (a : app) (p : process) (slot : search_slot) (sig : signal)
  (wk : worker) (w : nat) (t : table_widget).

Lemma in_window_requests_sent body p :
  requests_sent (in_window body p) = requests_sent p.
Proof. unfold in_window. by destruct (body (window p)). Qed.

Lemma proper_created wk : proper_worker wk → created_by_search wk.
Proof.
  intros (slot & q & st & _ & _ & ->). apply created_set_state, created_started.
Qed.

Lemma proper_set_state wk : proper_worker wk → proper_worker (set_state Finished wk).
Proof.
  intros (slot & q & st & Hq & _ & ->). by exists slot, q, Finished.
Qed.

Lemma proper_started slot q : q ≠ "" → proper_worker (started_worker slot q).
Proof. intros Hq. by exists slot, q, Running. Qed.

(** The table keeps its number of columns through a rendering, finished
    or not. *)
Lemma setItem_columnCount row column item t :
  columnCount (setItem row column item t) = columnCount t.
Proof. unfold setItem. by destruct (_ && _). Qed.

Lemma display_row_columnCount row product :
  unchanged columnCount (display_row row product).
Proof.
  unfold display_row.
  repeat (apply unchanged_bind; [| intros ?]);
    try apply unchanged_lift;
    apply unchanged_modify; intros; apply setItem_columnCount.
Qed.

Lemma display_columnCount products :
  unchanged columnCount (display_products_in_table products).
Proof.
  unfold display_products_in_table.
  repeat (apply unchanged_bind; [| intros ?]); try apply unchanged_lift.
  - by apply unchanged_modify.
  - apply unchanged_for. intros [row product]. apply display_row_columnCount.
Qed.

Lemma on_table_same {A X} (f : table_widget → X) (table : app → table_widget)
    (set_table : table_widget → app → app) (c : py table_widget A) :
  (∀ t a, table (set_table t a) = t) →
  unchanged f c → unchanged (λ a, f (table a)) (on_table table set_table c).
Proof.
  intros Hget Hc a. unfold on_table. specialize (Hc (table a)).
  destruct (c (table a)) as [r t]. simpl in *. by rewrite Hget.
Qed.

Lemma callback_columns slot sig :
  unchanged (λ a, columnCount (barcode_table a)) (callback slot sig)
  ∧ unchanged (λ a, columnCount (name_table a)) (callback slot sig).
Proof.
  destruct sig as [products | message].
  - destruct slot; simpl; split.
    + unfold on_barcode_search_finished.
      repeat (apply unchanged_bind; [| intros ?]); try apply unchanged_lift;
        try (by apply unchanged_modify).
      apply (on_table_same columnCount); [done | apply display_columnCount].
    + by apply on_barcode_search_finished_frame.
    + by apply on_name_search_finished_frame.
    + unfold on_name_search_finished.
      repeat (apply unchanged_bind; [| intros ?]); try apply unchanged_lift;
        try (by apply unchanged_modify).
      apply (on_table_same columnCount); [done | apply display_columnCount].
  - split; intros a; by destruct slot.
Qed.

Lemma callback_search_worker slot sig : unchanged search_worker (callback slot sig).
Proof.
  destruct sig as [products | message].
  - destruct slot; simpl;
      [by apply on_barcode_search_finished_frame
      | by apply on_name_search_finished_frame].
  - intros a; by destruct slot.
Qed.

(** The window after a search was started with a non-empty text. *)
Lemma search_started slot q a :
  q ≠ "" →
  let a' := (match slot with
             | barcode_slot => search_by_barcode q a
             | name_slot => search_by_name q a
             end).2 in
  search_worker a' = Some (length (threads a))
  ∧ barcode_table a' = barcode_table a
  ∧ name_table a' = name_table a
  ∧ message_boxes a' = message_boxes a
  ∧ ¬ indicator_cleared slot a'.
Proof.
  intros Hq. apply String.eqb_neq in Hq.
  destruct slot; unfold search_by_barcode, search_by_name; rewrite Hq;
    rewrite !bind_modify; unfold SearchWorker;
    unfold mbind at 1, py_bind at 1; rewrite !bind_modify;
    unfold finished_connect, error_connect, start; rewrite !bind_modify;
    unfold py_modify; simpl; (repeat split; try done); by intros [? ?].
Qed.

Lemma step_trigger_window slot q p :
  window (step p (trigger slot q))
  = (match slot with
     | barcode_slot => search_by_barcode q (window p)
     | name_slot => search_by_name q (window p)
     end).2.
Proof. destruct slot; simpl; apply in_window_window. Qed.

Lemma step_trigger_logs slot q p :
  delivered (step p (trigger slot q)) = delivered p
  ∧ requests_sent (step p (trigger slot q)) = requests_sent p.
Proof.
  destruct slot; simpl; by rewrite in_window_delivered, in_window_requests_sent.
Qed.

Lemma step_trigger_empty_window slot p :
  ∃ box, window (step p (trigger slot "")) = show_message_box box (window p)
         ∧ box_icon box = Warning.
Proof. destruct slot; simpl; eexists; split; reflexivity. Qed.

Lemma complete_running_requests p w wk srv :
  threads (window p) !! w = Some wk →
  state wk = Running →
  created_by_search wk →
  requests_sent (complete w srv p)
  = requests_sent p ++ [(w, worker_request (search_type wk) (query wk))].
Proof.
  intros Hw Hs Hc. rewrite (complete_running p w wk srv Hw Hs Hc).
  by rewrite in_window_requests_sent.
Qed.

Lemma complete_running_window p w wk srv :
  threads (window p) !! w = Some wk →
  state wk = Running →
  created_by_search wk →
  window (complete w srv p)
  = (callback (slot_of wk) (outcome srv (search_type wk) (query wk))
       (set_threads (alter (set_state Finished) w) (window p))).2.
Proof.
  intros Hw Hs Hc. rewrite (complete_running p w wk srv Hw Hs Hc).
  by rewrite in_window_window.
Qed.

Lemma consistent_boot : consistent boot.
Proof.
  split.
  - apply Forall_nil_2.
  - done.
  - apply NoDup_nil_2.
  - intros w. split.
    + intros H. by apply elem_of_nil in H.
    + by intros (wk & H & _).
  - intros w rq H. by apply elem_of_nil in H.
  - done.
Qed.

Lemma consistent_trigger slot q p : consistent p → consistent (step p (trigger slot q)).
Proof.
  intros [Hwk Hh Hnd Hfin Hrp [Hc1 Hc2]].
  destruct (step_trigger_logs slot q p) as [Hd Hr].
  destruct (decide (q = "")) as [-> | Hq].
  - destruct (step_trigger_empty_window slot p) as (box & Hwin & _).
    split; rewrite ?Hd, ?Hr, ?Hwin; try done.
  - destruct (step_trigger slot q p Hq) as [HT _].
    pose proof (search_started slot q (window p) Hq) as Hs. cbv zeta in Hs.
    rewrite <- step_trigger_window in Hs.
    destruct Hs as (Hsw & Hbt & Hnt & _ & _).
    split; rewrite ?Hd, ?Hr; try done.
    + rewrite HT. apply Forall_app. split; [done |].
      by apply Forall_singleton, proper_started.
    + unfold handle_is_latest. rewrite Hsw, HT, length_app. simpl. lia.
    + intros w. rewrite Hfin, HT. split.
      * intros (wk & Hw & Hst). exists wk. split; [| done].
        rewrite lookup_app_l; [done |]. by apply lookup_lt_Some in Hw.
      * intros (wk & Hw & Hst). exists wk. split; [| done].
        apply lookup_snoc_Some in Hw as [[_ Hw] | [_ <-]]; [done | discriminate].
    + intros w rq Hin. destruct (Hrp w rq Hin) as (wk & Hw & ->).
      exists wk. split; [| done]. rewrite HT.
      rewrite lookup_app_l; [done |]. by apply lookup_lt_Some in Hw.
    + by rewrite Hbt, Hnt.
Qed.

Lemma consistent_complete w srv p : consistent p → consistent (complete w srv p).
Proof.
  intros Hp.
  destruct (threads (window p) !! w) as [wk |] eqn:Hw;
    [| rewrite complete_idle; [done | intros ? ?; congruence]].
  destruct (state wk) eqn:Hs;
    [rewrite complete_idle; [done | intros ? ?; congruence] |
    | rewrite complete_idle; [done | intros ? ?; congruence]].
  destruct Hp as [Hwk Hh Hnd Hfin Hrp [Hc1 Hc2]].
  assert (proper_worker wk) as Hpw.
  { rewrite Forall_lookup in Hwk. by apply (Hwk w). }
  pose proof (proper_created wk Hpw) as Hc.
  pose proof (complete_running_threads p w wk srv Hw Hs Hc) as HT.
  pose proof (complete_running_delivered p w wk srv Hw Hs Hc) as HD.
  pose proof (complete_running_requests p w wk srv Hw Hs Hc) as HR.
  pose proof (complete_running_window p w wk srv Hw Hs Hc) as HW.
  assert (w ∉ from_worker <$> delivered p) as Hfresh.
  { rewrite Hfin. intros (wk' & Hw' & Hst). congruence. }
  split.
  - rewrite HT. apply Forall_alter; [done |]. intros x _. apply proper_set_state.
  - unfold handle_is_latest in *. rewrite HT, HW, callback_search_worker. simpl.
    destruct (search_worker (window p)); [by rewrite length_alter |].
    by rewrite Hh.
  - rewrite HD, fmap_app. simpl. apply NoDup_app. split; [done |]. split.
    + intros x Hx Hx'. apply list_elem_of_singleton in Hx'. by subst x.
    + apply NoDup_singleton.
  - intros w'. rewrite HD, fmap_app, elem_of_app, HT, Hfin. simpl.
    rewrite list_elem_of_singleton. split.
    + intros [(wk' & Hw' & Hst) | ->].
      * exists wk'. split; [| done].
        rewrite list_lookup_alter_ne; [done |]. congruence.
      * exists (set_state Finished wk). split; [| done].
        by rewrite list_lookup_alter_eq, Hw.
    + intros (wk' & Hw' & Hst). destruct (decide (w' = w)) as [-> | Hne].
      * by right.
      * left. exists wk'. split; [| done].
        by rewrite list_lookup_alter_ne in Hw'.
  - intros w' rq. rewrite HR, elem_of_app, list_elem_of_singleton, HT.
    intros [Hin | [= -> ->]].
    + destruct (Hrp w' rq Hin) as (wk' & Hw' & ->).
      destruct (decide (w' = w)) as [-> | Hne].
      * exists (set_state Finished wk'). split; [| by destruct wk'].
        by rewrite list_lookup_alter_eq, Hw'.
      * exists wk'. split; [| done]. by rewrite list_lookup_alter_ne.
    + exists (set_state Finished wk). split; [| by destruct wk].
      by rewrite list_lookup_alter_eq, Hw.
  - rewrite HW.
    destruct (callback_columns (slot_of wk)
                (outcome srv (search_type wk) (query wk))) as [H1 H2].
    by rewrite H1, H2.
Qed.

Lemma consistent_step p ev : consistent p → consistent (step p ev).
Proof.
  destruct ev as [q | q | w srv].
  - apply (consistent_trigger barcode_slot).
  - apply (consistent_trigger name_slot).
  - apply consistent_complete.
Qed.

Lemma consistent_exec evs p : consistent p → consistent (exec evs p).
Proof.
  revert p. induction evs as [| ev evs IH]; intros p Hp; [done |].
  simpl. apply IH. by apply consistent_step.
Qed.

End Consistency.

(** ** Rendering *)

Section Rendering.

Implicit Types (t : table_widget) (product : pyval) (rows : list pyval).

Lemma setItem_inside row column item rc its :
  row < rc → column < 8 →
  setItem row column item (TableWidget rc 8 its)
  = TableWidget rc 8 (<[(row, column) := item]> its).
Proof.
  intros Hr Hc. unfold setItem. cbn [rowCount columnCount].
  apply Nat.ltb_lt in Hr, Hc. by rewrite Hr, Hc.
Qed.

(** One row of a well-formed product: all eight cells are set, nothing
    else is. *)
Lemma display_row_ok row product t :
  well_formed_product product →
  row < rowCount t →
  columnCount t = 8 →
  ∃ t', display_row row product t = (Ok tt, t')
        ∧ rowCount t' = rowCount t
        ∧ columnCount t' = 8
        ∧ (∀ c, c < 8 → items t' !! (row, c) = Some (cell product c))
        ∧ (∀ r c, r ≠ row ∨ 8 ≤ c → items t' !! (r, c) = items t !! (r, c)).
Proof.
  intros (d & -> & Hcode & Hname & Hbrands & Hnutr) Hrow Hcols.
  destruct t as [rc cc its]. cbn [rowCount columnCount] in Hrow, Hcols. subst cc.
  assert (extract_kcal (dict_get_default d "nutriments" (PDict ∅))
          = Ok (nutrients_of d)) as Hn.
  { unfold nutrients_of, dict_get_default.
    destruct Hnutr as [-> | [nd ->]]; apply extract_kcal_dict. }
  assert (∀ k, text_or_missing d k →
               QTableWidgetItem (dict_get_default d k (PStr "N/A"))
               = Ok (field_or_na d k)) as Hitem.
  { intros k Hk. unfold field_or_na, dict_get_default.
    by destruct Hk as [-> | [s ->]]. }
  unfold display_row.
  unfold mbind at 1, py_bind at 1, py_lift at 1. simpl getattr_get. cbv iota.
  unfold mbind at 1, py_bind at 1, py_lift at 1. rewrite Hn.
  unfold mbind at 1, py_bind at 1, py_lift at 1. rewrite (Hitem _ Hcode).
  rewrite bind_modify.
  unfold mbind at 1, py_bind at 1, py_lift at 1. rewrite (Hitem _ Hname).
  rewrite bind_modify.
  unfold mbind at 1, py_bind at 1, py_lift at 1. rewrite (Hitem _ Hbrands).
  rewrite !bind_modify. unfold py_modify.
  rewrite !setItem_inside by lia.
  eexists. split; [reflexivity |]. cbn [rowCount columnCount items].
  split; [done |]. split; [done |]. split.
  - intros c Hc.
    do 8 (destruct c as [| c];
          [repeat (rewrite lookup_insert_ne by (intros [= ?]; lia));
           by rewrite lookup_insert_eq |]).
    lia.
  - intros r c Hrc.
    by repeat (rewrite lookup_insert_ne by (intros [= ? ?]; lia)).
Qed.

(** A product that cannot be shown makes its row raise before any cell
    is set. *)
Lemma display_row_unrenderable row product t :
  unrenderable_product product →
  ∃ e, display_row row product t = (Raise e, t) ∧ exn_class e = AttributeError.
Proof.
  intros [Hnot | (d & v & -> & Hv & Hnd)]; unfold display_row.
  - destruct product; try (eexists; split; reflexivity). by destruct (Hnot d).
  - unfold mbind at 1, py_bind at 1, py_lift at 1. simpl getattr_get. cbv iota.
    unfold mbind at 1, py_bind at 1, py_lift at 1.
    unfold dict_get_default at 1. rewrite Hv. simpl.
    destruct v; try (eexists; split; reflexivity). by destruct (Hnd d0).
Qed.

Lemma py_for_app {S A} (xs ys : list A) (body : A → py S unit) (s s1 : S) :
  py_for xs body s = (Ok tt, s1) →
  py_for (xs ++ ys) body s = py_for ys body s1.
Proof.
  revert s. induction xs as [| x xs IH]; intros s; simpl.
  - by intros [= ->].
  - unfold mbind, py_bind. destruct (body x s) as [[[] | e] s']; [| done].
    apply IH.
Qed.

(** The loop over the rows from index [k] on. *)
Lemma display_rows_ok rows :
  ∀ k t,
    Forall well_formed_product rows →
    k + length rows ≤ rowCount t →
    columnCount t = 8 →
    ∃ t', py_for (imap (λ i product, (k + i, product)) rows)
                 (λ '(row, product), display_row row product) t
          = (Ok tt, t')
          ∧ rowCount t' = rowCount t
          ∧ columnCount t' = 8
          ∧ (∀ i product c, rows !! i = Some product → c < 8 →
                            items t' !! (k + i, c) = Some (cell product c))
          ∧ (∀ r c, ¬ (k ≤ r < k + length rows ∧ c < 8) →
                    items t' !! (r, c) = items t !! (r, c)).
Proof.
  induction rows as [| product rows IH]; intros k t Hwf Hlen Hcols.
  - exists t. simpl. by repeat split.
  - apply Forall_cons in Hwf as [Hwf1 Hwf]. simpl in Hlen.
    destruct (display_row_ok (k + 0) product t Hwf1 ltac:(lia) Hcols)
      as (t1 & Hrun1 & Hrc1 & Hcc1 & Hcells1 & Hrest1).
    destruct (IH (S k) t1 Hwf ltac:(lia) Hcc1)
      as (t2 & Hrun2 & Hrc2 & Hcc2 & Hcells2 & Hrest2).
    exists t2. split; [| split; [congruence | split; [done | split]]].
    + rewrite imap_cons. simpl py_for. unfold mbind, py_bind. rewrite Hrun1.
      rewrite <- Hrun2. f_equal. apply imap_ext. intros i x _. simpl.
      f_equal. lia.
    + intros i product' c Hi Hc. destruct i as [| i]; simpl in Hi.
      * injection Hi as <-. rewrite Hrest2 by lia. by apply Hcells1.
      * replace (k + S i) with (S k + i) by lia. by apply Hcells2.
    + intros r c Hrc. simpl in Hrc. rewrite Hrest2 by lia.
      apply Hrest1. lia.
Qed.

Lemma setRowCount_items n t r c :
  items (setRowCount n t) !! (r, c)
  = if decide (r < n) then items t !! (r, c) else None.
Proof.
  unfold setRowCount. simpl. rewrite map_lookup_filter.
  destruct (items t !! (r, c)) as [x |]; simpl; case_decide; try done.
  - by rewrite option_guard_True.
  - by rewrite option_guard_False.
Qed.

End Rendering.

(** Rendering well-formed rows, for use below. *)
Lemma display_well_formed_rows (products : gmap string pyval)
    (rows : list pyval) (t : table_widget) :
  products !! "products" = Some (PList rows) →
  Forall well_formed_product rows →
  columnCount t = 8 →
  ∃ t', display_products_in_table products t = (Ok tt, t')
        ∧ rowCount t' = length rows
        ∧ columnCount t' = 8
        ∧ (∀ r product c, rows !! r = Some product → c < 8 →
                          items t' !! (r, c) = Some (cell product c))
        ∧ (∀ r c, length rows ≤ r → items t' !! (r, c) = None).
Proof.
  intros Hp Hwf Hcols.
  destruct (display_rows_ok rows 0 (setRowCount (length rows) t) Hwf)
    as (t' & Hrun & Hrc & Hcc & Hcells & Hrest); [simpl; lia | done |].
  exists t'. split; [| split; [done | split; [done | split]]].
  - unfold display_products_in_table, dict_get_default. rewrite Hp. simpl.
    unfold mbind at 1, py_bind at 1, py_lift at 1. rewrite bind_modify.
    unfold mbind at 1, py_bind at 1, py_lift at 1. exact Hrun.
  - intros r product c Hr Hc. by apply (Hcells r product c).
  - intros r c Hr. rewrite Hrest by lia. rewrite setRowCount_items.
    case_decide; [lia | done].
Qed.

(** X8.  Rendering a list of well-formed products into a table of eight
    columns never raises: the table gets one row per product, every cell
    of a row shows [str] of its field or ['N/A'] where the field is
    missing (the nutrient columns through [extract_kcal]), and nothing of
    an earlier, longer result is left below the last row. *)
Theorem display_renders_every_row (products : gmap string pyval)
    (rows : list pyval) (t : table_widget) :
  products !! "products" = Some (PList rows) →
  Forall well_formed_product rows →
  columnCount t = 8 →
  ∃ t', display_products_in_table products t = (Ok tt, t')
        ∧ rowCount t' = length rows
        ∧ columnCount t' = 8
        ∧ (∀ r product c, rows !! r = Some product → c < 8 →
                          items t' !! (r, c) = Some (cell product c))
        ∧ (∀ r c, length rows ≤ r → items t' !! (r, c) = None).
Proof. apply display_well_formed_rows. Qed.

(** The theorem at work: one product without nutrients, over an earlier
    result of three rows. *)
Lemma display_renders_every_row_witness :
  ∃ t', display_products_in_table
          (products_of [PDict {[ "code" := PStr "123" ]}])
          (TableWidget 3 8 {[ (2, 0) := Text "old" ]})
        = (Ok tt, t')
        ∧ rowCount t' = 1
        ∧ items t' !! (0, 0) = Some (Text "123")
        ∧ items t' !! (0, 3) = Some (Text "N/A")
        ∧ items t' !! (2, 0) = None.
Proof.
  destruct (display_renders_every_row
              (products_of [PDict {[ "code" := PStr "123" ]}])
              [PDict {[ "code" := PStr "123" ]}]
              (TableWidget 3 8 {[ (2, 0) := Text "old" ]}))
    as (t' & Hrun & Hrc & _ & Hcells & Hgone).
  - reflexivity.
  - apply Forall_singleton. exists {[ "code" := PStr "123" ]}.
    split; [done |]. split; [right; by exists "123" |].
    repeat split; by left.
  - reflexivity.
  - exists t'. split; [done |]. split; [done |].
    split; [exact (Hcells 0 _ 0 eq_refl ltac:(lia)) |].
    split; [exact (Hcells 0 _ 3 eq_refl ltac:(lia)) |].
    apply Hgone. simpl. lia.
Defined.

(** X9.  Rendering stops at the first product it cannot show (one that
    is not a mapping, or whose [nutriments] is not a mapping): it raises
    [AttributeError], the rows before that product are complete, and the
    table already has its new number of rows, so from that product's row
    on the cells keep what an earlier result left there. *)
Theorem display_stops_at_unrenderable (products : gmap string pyval)
    (rows1 : list pyval) (bad : pyval) (rows2 : list pyval) (t : table_widget) :
  products !! "products" = Some (PList (rows1 ++ bad :: rows2)) →
  Forall well_formed_product rows1 →
  unrenderable_product bad →
  columnCount t = 8 →
  ∃ e t', display_products_in_table products t = (Raise e, t')
          ∧ exn_class e = AttributeError
          ∧ rowCount t' = length (rows1 ++ bad :: rows2)
          ∧ (∀ r product c, rows1 !! r = Some product → c < 8 →
                            items t' !! (r, c) = Some (cell product c))
          ∧ (∀ r c, length rows1 ≤ r →
                    items t' !! (r, c)
                    = if decide (r < length (rows1 ++ bad :: rows2))
                      then items t !! (r, c) else None).
Proof.
  intros Hp Hwf Hbad Hcols.
  set (n := length (rows1 ++ bad :: rows2)).
  assert (length rows1 < n) as Hn
    by (unfold n; rewrite length_app; simpl; lia).
  destruct (display_rows_ok rows1 0 (setRowCount n t) Hwf)
    as (t1 & Hrun & Hrc & Hcc & Hcells & Hrest); [simpl; lia | done |].
  destruct (display_row_unrenderable (length rows1 + 0) bad t1 Hbad)
    as (e & Hraise & Hclass).
  exists e, t1. split; [| split; [done | split; [done | split]]].
  - unfold display_products_in_table, dict_get_default. rewrite Hp. simpl.
    unfold mbind at 1, py_bind at 1, py_lift at 1. rewrite bind_modify.
    unfold mbind at 1, py_bind at 1, py_lift at 1. fold n.
    unfold enumerate. rewrite imap_app.
    rewrite (py_for_app _ _ _ _ t1); [| exact Hrun].
    rewrite imap_cons. simpl py_for. unfold mbind, py_bind.
    by rewrite Hraise.
  - intros r product c Hr Hc. by apply (Hcells r product c).
  - intros r c Hr. rewrite Hrest by lia. apply setRowCount_items.
Qed.

(** The theorem at work: the second of two products has null
    nutrients. *)
Lemma display_stops_at_unrenderable_witness :
  ∃ e t', display_products_in_table
            (products_of [ PDict {[ "code" := PStr "1" ]};
                           PDict {[ "nutriments" := PNone ]} ])
            (TableWidget 0 8 ∅)
          = (Raise e, t')
          ∧ rowCount t' = 2
          ∧ items t' !! (0, 0) = Some (Text "1")
          ∧ items t' !! (1, 0) = None.
Proof.
  destruct (display_stops_at_unrenderable
              (products_of [ PDict {[ "code" := PStr "1" ]};
                             PDict {[ "nutriments" := PNone ]} ])
              [PDict {[ "code" := PStr "1" ]}]
              (PDict {[ "nutriments" := PNone ]}) []
              (TableWidget 0 8 ∅))
    as (e & t' & Hrun & _ & Hrc & Hcells & Hrest).
  - reflexivity.
  - apply Forall_singleton. exists {[ "code" := PStr "1" ]}.
    split; [done |]. split; [right; by exists "1" |].
    repeat split; by left.
  - right. exists {[ "nutriments" := PNone ]}, PNone.
    split; [done |]. split; [done | discriminate].
  - reflexivity.
  - exists e, t'. split; [done |]. split; [done |].
    split; [exact (Hcells 0 _ 0 eq_refl ltac:(lia)) |].
    rewrite Hrest by (simpl; lia). by case_decide.
Defined.

(** ** Properties of every run of the window *)

(** X10.  At every moment [self.search_worker] refers to the worker
    created last, whichever tab started it, and to none before the first
    search: the window holds on to no earlier worker. *)
Theorem handle_refers_to_latest_worker (evs : list event) :
  match search_worker (window (exec evs boot)) with
  | None => threads (window (exec evs boot)) = []
  | Some w => S w = length (threads (window (exec evs boot)))
  end.
Proof. apply (handle_latest _ (consistent_exec evs boot consistent_boot)). Qed.

(** X11.  At every moment each worker has had its signal delivered at
    most once, and the workers that have had it delivered are exactly
    those that have finished. *)
Theorem one_callback_per_worker (evs : list event) :
  NoDup (from_worker <$> delivered (exec evs boot))
  ∧ (∀ w, w ∈ from_worker <$> delivered (exec evs boot)
          ↔ ∃ wk, threads (window (exec evs boot)) !! w = Some wk
                  ∧ state wk = Finished).
Proof.
  destruct (consistent_exec evs boot consistent_boot) as [_ _ Hnd Hfin _ _].
  split; [exact Hnd | exact Hfin].
Qed.

(** X12.  An empty input text never gets as far as the network: at every
    moment each worker was built for a non-empty text and has been
    started, and each request sent so far is the one of a worker for a
    non-empty text. *)
Theorem no_request_for_empty_text (evs : list event) :
  (∀ wk, wk ∈ threads (window (exec evs boot)) →
         query wk ≠ "" ∧ state wk ≠ NotStarted)
  ∧ (∀ w rq, (w, rq) ∈ requests_sent (exec evs boot) →
             ∃ slot text, text ≠ "" ∧ rq = worker_request (slot_type slot) text).
Proof.
  destruct (consistent_exec evs boot consistent_boot)
    as [Hwk _ _ _ Hrp _].
  rewrite Forall_forall in Hwk. split.
  - intros wk Hin. by destruct (Hwk wk Hin) as (slot & q & st & Hq & Hst & ->).
  - intros w rq Hin. destruct (Hrp w rq Hin) as (wk & Hw & ->).
    apply list_elem_of_lookup_2 in Hw.
    destruct (Hwk wk Hw) as (slot & q & st & Hq & _ & ->).
    by exists slot, q.
Qed.

(** X13.  Both tables have eight columns at every moment, also after a
    rendering that raised. *)
Theorem tables_keep_eight_columns (evs : list event) :
  columnCount (barcode_table (window (exec evs boot))) = 8
  ∧ columnCount (name_table (window (exec evs boot))) = 8.
Proof. apply (eight_columns _ (consistent_exec evs boot consistent_boot)). Qed.

(** X14.  A failed search resets the indicators of both tabs, also the
    one of the other tab while a search of that tab is still running: it
    shows one critical dialog with the worker's message, leaves both
    tables as they are, and changes no other worker. *)
Theorem error_resets_both_tabs before w wk srv message :
  threads (window (exec before boot)) !! w = Some wk →
  state wk = Running →
  emitted (run_thread srv (search_type wk) (query wk)) = [error message] →
  indicator_cleared barcode_slot
    (window (step (exec before boot) (worker_completes w srv)))
  ∧ indicator_cleared name_slot
      (window (step (exec before boot) (worker_completes w srv)))
  ∧ message_boxes (window (step (exec before boot) (worker_completes w srv)))
    = message_boxes (window (exec before boot))
      ++ [MessageBox Critical "Ошибка" message]
  ∧ statusBar (window (step (exec before boot) (worker_completes w srv)))
    = "Ошибка при поиске"
  ∧ barcode_table (window (step (exec before boot) (worker_completes w srv)))
    = barcode_table (window (exec before boot))
  ∧ name_table (window (step (exec before boot) (worker_completes w srv)))
    = name_table (window (exec before boot))
  ∧ (∀ w' wk', w' ≠ w →
       threads (window (exec before boot)) !! w' = Some wk' →
       threads (window (step (exec before boot) (worker_completes w srv))) !! w'
       = Some wk').
Proof.
  intros Hw Hs Hsig.
  pose proof (consistent_exec before boot consistent_boot) as Hcon.
  assert (created_by_search wk) as Hc.
  { apply proper_created. pose proof (workers_proper _ Hcon) as Hall.
    rewrite Forall_lookup in Hall. by apply (Hall w). }
  rewrite emitted_outcome in Hsig. injection Hsig as Hsig.
  simpl step.
  rewrite (complete_running_window _ w wk srv Hw Hs Hc), Hsig.
  assert (callback (slot_of wk) (error message) = on_search_error message) as ->
    by (by destruct (slot_of wk)).
  rewrite on_search_error_eq. cbn.
  split; [by split |]. split; [by split |].
  split; [done |]. split; [done |]. split; [done |]. split; [done |].
  intros w' wk' Hne Hw'. rewrite list_lookup_alter_ne; [done | congruence].
Qed.

(** The theorem at work: a name search is running when a barcode search
    times out. *)
Lemma error_resets_both_tabs_witness :
  indicator_cleared name_slot
    (window (exec [ trigger_search_by_name "milk";
                    trigger_search_by_barcode "123";
                    worker_completes 1 (always (Raise (Exn Timeout "timed out"))) ]
                  boot))
  ∧ state <$> threads
        (window (exec [ trigger_search_by_name "milk";
                        trigger_search_by_barcode "123";
                        worker_completes 1 (always (Raise (Exn Timeout "timed out"))) ]
                      boot)) !! 0
    = Some Running.
Proof.
  destruct (error_resets_both_tabs
              [trigger_search_by_name "milk"; trigger_search_by_barcode "123"]
              1 (started_worker barcode_slot "123")
              (always (Raise (Exn Timeout "timed out")))
              "Ошибка сети: timed out" eq_refl eq_refl eq_refl)
    as (_ & Hname & _ & _ & _ & _ & Hother).
  split; [exact Hname |].
  change (exec [trigger_search_by_name "milk"; trigger_search_by_barcode "123";
                worker_completes 1 (always (Raise (Exn Timeout "timed out")))] boot)
    with (step (exec [trigger_search_by_name "milk";
                      trigger_search_by_barcode "123"] boot)
               (worker_completes 1 (always (Raise (Exn Timeout "timed out"))))).
  by rewrite (Hother 0 (started_worker name_slot "milk") ltac:(lia) eq_refl).
Defined.

(** ** The detail dialog *)

(** X15.  After a name search whose rows are all well-formed, the status
    bar shows their number, no dialog was shown, and a double click on any
    row opens the detail dialog without raising: eight labelled lines
    holding the cells of that row. *)
Theorem rendered_rows_open_their_details (products : gmap string pyval)
    (rows : list pyval) (a : app) :
  products !! "products" = Some (PList rows) →
  Forall well_formed_product rows →
  columnCount (name_table a) = 8 →
  ∃ a', on_name_search_finished products a = (Ok tt, a')
        ∧ rowCount (name_table a') = length rows
        ∧ statusBar a' = "Найдено продуктов: " +:+ pretty (length rows)
        ∧ message_boxes a' = message_boxes a
        ∧ ∀ r product, rows !! r = Some product →
            on_product_double_click r a'
            = Ok (DetailDialog "Детальная информация"
                    (join_lines (Text (String "010" EmptyString))
                       (detail_line
                          <$> zip detail_labels (cell product <$> seq 0 8)))).
Proof.
  intros Hp Hwf Hcols.
  destruct (display_well_formed_rows products rows (name_table a) Hp Hwf Hcols)
    as (t' & Hrun & Hrc & _ & Hcells & _).
  eexists. split.
  - unfold on_name_search_finished. rewrite !bind_modify.
    unfold mbind at 1, py_bind at 1, on_table.
    cbn [name_table set_name_progress set_name_search_btn]. rewrite Hrun.
    unfold dict_get_default. rewrite Hp. cbn [default py_len].
    unfold mbind at 1, py_bind at 1, py_lift, py_modify. reflexivity.
  - cbn [name_table statusBar message_boxes showMessage set_name_table
         set_name_progress set_name_search_btn].
    split; [done |]. split; [done |]. split; [done |].
    intros r product Hr.
    unfold on_product_double_click, product_info, item_text.
    cbn [name_table showMessage set_name_table].
    rewrite !(Hcells r product) by (done || lia). reflexivity.
Qed.

(** The theorem at work: one product that has only its code. *)
Lemma rendered_rows_open_their_details_witness :
  ∃ a', on_name_search_finished
          (products_of [PDict {[ "code" := PStr "123" ]}]) initUI
        = (Ok tt, a')
        ∧ statusBar a' = "Найдено продуктов: 1"
        ∧ ∃ dialog, on_product_double_click 0 a' = Ok dialog.
Proof.
  destruct (rendered_rows_open_their_details
              (products_of [PDict {[ "code" := PStr "123" ]}])
              [PDict {[ "code" := PStr "123" ]}] initUI)
    as (a' & Hrun & _ & Hstatus & _ & Hclick).
  - reflexivity.
  - apply Forall_singleton. exists {[ "code" := PStr "123" ]}.
    split; [done |]. split; [right; by exists "123" |].
    repeat split; by left.
  - reflexivity.
  - exists a'. split; [done |]. split; [done |].
    eexists. by apply (Hclick 0).
Defined.

(** X16.  A double click on a row that lacks an item in any of its eight
    columns (a row a failed rendering did not reach) raises
    [AttributeError] and shows no dialog. *)
Theorem double_click_needs_all_items (a : app) (row c : nat) :
  c < 8 →
  items (name_table a) !! (row, c) = None →
  on_product_double_click row a
  = Raise (Exn AttributeError "'NoneType' object has no attribute 'text'").
Proof.
  intros Hc Hnone. unfold on_product_double_click, product_info, item_text.
  repeat match goal with
         | |- context [items ?t !! (?r, ?k)] =>
             let E := fresh "E" in
             destruct (items t !! (r, k)) eqn:E; simpl; [| done]
         end.
  do 8 (destruct c as [| c]; [congruence |]). lia.
Qed.

(** The theorem at work: the table of the fresh window has no row. *)
Lemma double_click_needs_all_items_witness :
  on_product_double_click 0 initUI
  = Raise (Exn AttributeError "'NoneType' object has no attribute 'text'").
Proof.
  refine (double_click_needs_all_items initUI 0 0 _ _).
  - lia.
  - reflexivity.
Defined.

(** ** From the answer to the table *)

Section EndToEnd.

Implicit Types (a : app) (p : process).

Lemma on_barcode_search_finished_ok (products : gmap string pyval)
    (rows : list pyval) a :
  products !! "products" = Some (PList rows) →
  Forall well_formed_product rows →
  columnCount (barcode_table a) = 8 →
  ∃ a', on_barcode_search_finished products a = (Ok tt, a')
        ∧ rowCount (barcode_table a') = length rows
        ∧ (∀ r product c, rows !! r = Some product → c < 8 →
             items (barcode_table a') !! (r, c) = Some (cell product c))
        ∧ statusBar a' = "Найдено продуктов: " +:+ pretty (length rows)
        ∧ message_boxes a' = message_boxes a.
Proof.
  intros Hp Hwf Hcols.
  destruct (display_well_formed_rows products rows (barcode_table a) Hp Hwf Hcols)
    as (t' & Hrun & Hrc & _ & Hcells & _).
  eexists. split.
  - unfold on_barcode_search_finished. rewrite !bind_modify.
    unfold mbind at 1, py_bind at 1, on_table.
    cbn [barcode_table set_barcode_progress set_barcode_search_btn]. rewrite Hrun.
    unfold dict_get_default. rewrite Hp. cbn [default py_len].
    unfold mbind at 1, py_bind at 1, py_lift, py_modify. reflexivity.
  - cbn [barcode_table statusBar message_boxes showMessage set_barcode_table
         set_barcode_progress set_barcode_search_btn].
    by repeat split.
Qed.

End EndToEnd.

(** X17.  From the answer to the table: at any moment, when a running
    barcode worker gets a 2xx answer whose [product] is a non-empty
    well-formed record, the barcode table ends up with exactly one row
    showing that product, the status bar counts one product, the
    indicator is cleared, no dialog is shown and no exception escapes. *)
Theorem found_product_is_shown before w wk srv code reason url
    (body : gmap string pyval) (product : pyval) :
  threads (window (exec before boot)) !! w = Some wk →
  state wk = Running →
  search_type wk = "barcode" →
  is_2xx code →
  answers srv (product_endpoint (query wk))
          (Ok (Requests.Response code reason url (Ok (PDict body)))) →
  body !! "product" = Some product →
  truthy product = true →
  well_formed_product product →
  rowCount (barcode_table
              (window (step (exec before boot) (worker_completes w srv)))) = 1
  ∧ (∀ c, c < 8 →
       items (barcode_table
                (window (step (exec before boot) (worker_completes w srv))))
         !! (0, c) = Some (cell product c))
  ∧ statusBar (window (step (exec before boot) (worker_completes w srv)))
    = "Найдено продуктов: 1"
  ∧ indicator_cleared barcode_slot
      (window (step (exec before boot) (worker_completes w srv)))
  ∧ message_boxes (window (step (exec before boot) (worker_completes w srv)))
    = message_boxes (window (exec before boot))
  ∧ uncaught (step (exec before boot) (worker_completes w srv))
    = uncaught (exec before boot).
Proof.
  intros Hw Hs Hty Hcode Hsrv Hp Ht Hwf.
  pose proof (consistent_exec before boot consistent_boot) as Hcon.
  assert (created_by_search wk) as Hc.
  { apply proper_created. pose proof (workers_proper _ Hcon) as Hall.
    rewrite Forall_lookup in Hall. by apply (Hall w). }
  assert (outcome srv (search_type wk) (query wk)
          = finished (products_of [product])) as Hout.
  { assert (answers srv (endpoint (search_type wk) (query wk))
              (Ok (Requests.Response code reason url (Ok (PDict body))))) as Hsrv'
      by (by rewrite Hty).
    pose proof (emitted_answers srv _ _ _ Hsrv') as He.
    rewrite emitted_outcome, http_result_2xx in He by done.
    injection He as ->. rewrite Hty. simpl.
    unfold dict_get, dict_get_default. rewrite Hp. simpl. by rewrite Ht. }
  assert (slot_of wk = barcode_slot) as Hslot by (unfold slot_of; by rewrite Hty).
  destruct (on_barcode_search_finished_ok (products_of [product]) [product]
              (set_threads (alter (set_state Finished) w) (window (exec before boot))))
    as (a' & Hrun & Hrc & Hcells & Hstatus & Hboxes).
  { reflexivity. }
  { by apply Forall_singleton. }
  { apply (eight_columns _ Hcon). }
  simpl step. rewrite (complete_running _ w wk srv Hw Hs Hc), Hout, Hslot.
  cbn [callback]. unfold in_window. cbn [window log_delivery]. rewrite Hrun.
  cbn [window uncaught].
  split; [done |]. split; [intros c Hc'; by apply (Hcells 0) |].
  split; [done |]. split.
  - pose proof (on_barcode_search_finished_cleared (products_of [product])
                  (set_threads (alter (set_state Finished) w)
                     (window (exec before boot)))) as Hclear.
    by rewrite Hrun in Hclear.
  - by split.
Qed.

(** The theorem at work: the first search on the fresh window finds its
    product. *)
Lemma found_product_is_shown_witness :
  items (barcode_table
           (window (exec [ trigger_search_by_barcode "123";
                           worker_completes 0 two_products ] boot)))
    !! (0, 0) = Some (Text "123")
  ∧ statusBar (window (exec [ trigger_search_by_barcode "123";
                              worker_completes 0 two_products ] boot))
    = "Найдено продуктов: 1".
Proof.
  destruct (found_product_is_shown
              [trigger_search_by_barcode "123"] 0
              (started_worker barcode_slot "123") two_products
              200 "OK" (product_endpoint "123")
              {[ "product" := PDict {[ "code" := PStr "123" ]} ]}
              (PDict {[ "code" := PStr "123" ]}))
    as (_ & Hcells & Hstatus & _).
  - reflexivity.
  - reflexivity.
  - reflexivity.
  - unfold is_2xx. lia.
  - intros rq Hrq. unfold two_products. by rewrite Hrq, String.eqb_refl.
  - reflexivity.
  - reflexivity.
  - exists {[ "code" := PStr "123" ]}.
    split; [done |]. split; [right; by exists "123" |].
    repeat split; by left.
  - split; [exact (Hcells 0 ltac:(lia)) | exact Hstatus].
Defined.

(** ** What a fetch returns *)

(** X18.  What the two fetch functions make of the server's answer: an
    exception of [requests.get] is passed on as it is; a 4xx or 5xx
    status becomes an [HTTPError], whatever the body; with any other
    status the result is that of decoding the body, the decoded value
    unchanged or the decoder's exception. *)
Theorem fetch_outcomes (srv : Requests.request → result Requests.response)
    (answer : result Requests.response)
    barcode query page_size fields lang country log :
  (∀ rq, srv rq = answer) →
  (∀ e, answer = Raise e →
     (get_product_by_barcode barcode fields lang country
        (Requests.Network srv log)).1 = Raise e
     ∧ (search_products query page_size fields lang country
          (Requests.Network srv log)).1 = Raise e)
  ∧ (∀ r, answer = Ok r → is_error_status (Requests.status_code r) →
       ∃ msg,
         (get_product_by_barcode barcode fields lang country
            (Requests.Network srv log)).1 = Raise (Exn HTTPError msg)
         ∧ (search_products query page_size fields lang country
              (Requests.Network srv log)).1 = Raise (Exn HTTPError msg))
  ∧ (∀ r, answer = Ok r → ¬ is_error_status (Requests.status_code r) →
       (get_product_by_barcode barcode fields lang country
          (Requests.Network srv log)).1 = Requests.resp_json r
       ∧ (search_products query page_size fields lang country
            (Requests.Network srv log)).1 = Requests.resp_json r).
Proof.
  intros Hsrv.
  rewrite get_product_by_barcode_eq, search_products_eq. cbn [fst Requests.server].
  rewrite !Hsrv. split; [| split].
  - by intros e ->.
  - intros r -> Hcode.
    destruct (http_result_error_status r Hcode) as [kind ->]. by eexists.
  - intros r -> Hcode. unfold http_result. simpl.
    assert (Requests.raise_for_status r = Ok tt) as ->.
    { unfold Requests.raise_for_status, is_error_status in *.
      destruct ((400 <=? Requests.status_code r)%Z
                && (Requests.status_code r <? 500)%Z) eqn:E1;
        [exfalso; rewrite andb_true_iff in E1; lia |].
      destruct ((500 <=? Requests.status_code r)%Z
                && (Requests.status_code r <? 600)%Z) eqn:E2;
        [exfalso; rewrite andb_true_iff in E2; lia | done]. }
    simpl. unfold Requests.json. by destruct (Requests.resp_json r).
Qed.

(** The theorem at work: the server answers 404 with a decodable body. *)
Lemma fetch_outcomes_witness :
  ∃ msg, (get_product_by_barcode "123" PNone default_lang default_country
            (Requests.Network
               (always (Ok (Requests.Response 404 "Not Found" ""
                              (Ok (PDict ∅))))) [])).1
         = Raise (Exn HTTPError msg).
Proof.
  destruct (fetch_outcomes
              (always (Ok (Requests.Response 404 "Not Found" "" (Ok (PDict ∅)))))
              (Ok (Requests.Response 404 "Not Found" "" (Ok (PDict ∅))))
              "123" "" (PInt 10) PNone default_lang default_country []
              (λ _, eq_refl)) as (_ & Herr & _).
  destruct (Herr _ eq_refl) as (msg & Hmsg & _).
  - unfold is_error_status. simpl. lia.
  - by exists msg.
Defined.

(** ** Overlapping searches *)

Section Runtime.

Implicit Types (a : app) (p : process) (slot : search_slot) (sig : signal)
  (wk : worker) (w : nat) (in_run : list nat).












End Runtime.



(** ** Sessions and the event loop *)

Section Reach.

Implicit Types (p : process) (in_run : list nat).








End Reach.


